(** * Verification of the ground-truth news pipeline (Backend/Gemini_News/verify_news.py)

    A shallow embedding of the four stages of [verify_news.py] -- claim
    extraction, evidence search, ranking with explanations, and the
    orchestrator -- together with the Python string primitives they use,
    and of the checks, the label display, the result display and the result
    path of the driver [run_verify.py].

    Conventions of the embedding.
    - A Python [str] is a [string]; a character is its code point (0..255).
      The whitespace and digit classes are Python's on that range.
    - A raised exception is a value of [exn]; a computation that can raise
      returns a [result].  Only instances of Python's [Exception] are
      represented (nothing else is caught by [except Exception]).
    - The text-generation and search services are oracles that may answer
      differently on every call: they receive the calls made so far.
    - [print] is not represented.  A float is represented by the number it
      stands for, [m * 2^e], or as an infinity or a NaN; the search score is
      a rational.  The built-ins follow CPython 3.11. *)

From Stdlib Require Import String Ascii List ZArith Lia Bool QArith DecimalString Sorted.
From Stdlib Require Import DecimalNat DecimalFacts.
Import ListNotations.
Open Scope list_scope.
Open Scope Z_scope.
Open Scope string_scope.

Set Implicit Arguments.
Set Warnings "-register-all".

(** ** Exceptions and results *)

Inductive exn_class : Type :=
| ValueError
| TypeError
| IndexError
| JSONDecodeError        (* json.JSONDecodeError and its subclasses *)
| PlainException         (* raise Exception(...) *)
| ServiceError           (* any other Exception raised by a collaborator *)
| OverflowError.

Record exn : Type := Exn { exn_cls : exn_class; exn_str : string }.

Definition is_json_decode_error (e : exn) : bool :=
  match exn_cls e with JSONDecodeError => true | _ => false end.

Inductive result (A : Type) : Type :=
| Ok (a : A)
| Raise (e : exn).
Arguments Ok {A} a.
Arguments Raise {A} e.

(** ** Python values (the JSON fragment of them) *)

(** A float.  A finite one is the number [m * 2^e] (every double is of this
    form; the sign of a zero is not kept). *)
Inductive pyfloat : Type :=
| Finite (m e : Z)
| Infinity (negative : bool)
| NaN.

Inductive pyval : Type :=
| PyNone
| PyBool (b : bool)
| PyInt (z : Z)
| PyFloat (f : pyfloat)
| PyStr (s : string)
| PyList (xs : list pyval)
| PyDict (kvs : list (string * pyval)).

(** [d.get(k)] / [d[k]] on a dict kept as an association list. *)
Fixpoint assoc_get (k : string) (kvs : list (string * pyval)) : option pyval :=
  match kvs with
  | [] => None
  | (k', v) :: rest => if String.eqb k k' then Some v else assoc_get k rest
  end.

Definition py_get (k : string) (v : pyval) : option pyval :=
  match v with
  | PyDict kvs => assoc_get k kvs
  | _ => None
  end.

(** Assignment [d[k] = v]: an existing key keeps its position. *)
Fixpoint assoc_set (k : string) (v : pyval) (kvs : list (string * pyval))
  : list (string * pyval) :=
  match kvs with
  | [] => [(k, v)]
  | (k', v') :: rest =>
      if String.eqb k k' then (k, v) :: rest else (k', v') :: assoc_set k v rest
  end.

(** ** String primitives *)

Module Str.

Definition code (c : ascii) : N := N_of_ascii c.

(** [c.isspace()] for a code point below 256. *)
Definition isspace (c : ascii) : bool :=
  let n := code c in
  ((9 <=? n) && (n <=? 13) || (28 <=? n) && (n <=? 32)
   || (n =? 133) || (n =? 160))%N.

(** [c.isdigit()] for a code point below 256 (superscript one, two and
    three are digits for Python). *)
Definition isdigit (c : ascii) : bool :=
  let n := code c in
  ((48 <=? n) && (n <=? 57) || (n =? 178) || (n =? 179) || (n =? 185))%N.

Definition is_ascii_digit (c : ascii) : bool :=
  let n := code c in ((48 <=? n) && (n <=? 57))%N.

(** [c] is a cased character (it has the Lowercase or the Uppercase
    property, which includes the two ordinal indicators and the micro sign). *)
Definition is_cased (c : ascii) : bool :=
  let n := code c in
  ((65 <=? n) && (n <=? 90) || (97 <=? n) && (n <=? 122)
   || (n =? 170) || (n =? 181) || (n =? 186)
   || (192 <=? n) && (n <=? 214) || (216 <=? n) && (n <=? 246) || (248 <=? n))%N.

(** [c.lower()], which stays a single character of the range. *)
Definition lower_char (c : ascii) : ascii :=
  let n := code c in
  if ((65 <=? n) && (n <=? 90) || (192 <=? n) && (n <=? 214)
      || (216 <=? n) && (n <=? 222))%N
  then ascii_of_N (n + 32) else c.

(** The title case of [c].  The sharp s becomes "Ss".  The title cases of
    the micro sign (181) and of y with diaeresis (255) lie above 255: these
    two characters are left as they are, which is where the embedding departs
    from Python. *)
Definition title_char (c : ascii) : string :=
  let n := code c in
  if ((97 <=? n) && (n <=? 122) || (224 <=? n) && (n <=? 246)
      || (248 <=? n) && (n <=? 254))%N
  then String (ascii_of_N (n - 32)) EmptyString
  else if (n =? 223)%N then String "S"%char (String "s"%char EmptyString)
  else String c EmptyString.

Definition is_empty (s : string) : bool :=
  match s with EmptyString => true | _ => false end.

(** Truthiness of a [str]. *)
Definition truthy (s : string) : bool := negb (is_empty s).

Fixpoint rev_onto (s acc : string) : string :=
  match s with
  | EmptyString => acc
  | String c r => rev_onto r (String c acc)
  end.

Definition rev (s : string) : string := rev_onto s EmptyString.

(** [s.lstrip(chars)] with the set of characters given as a predicate. *)
Fixpoint lstrip_with (p : ascii -> bool) (s : string) : string :=
  match s with
  | EmptyString => EmptyString
  | String c r => if p c then lstrip_with p r else s
  end.

Definition rstrip_with (p : ascii -> bool) (s : string) : string :=
  rev (lstrip_with p (rev s)).

(** [s.strip()] *)
Definition strip (s : string) : string :=
  rstrip_with isspace (lstrip_with isspace s).

(** [s.lstrip('-')] *)
Definition lstrip_dash (s : string) : string :=
  lstrip_with (Ascii.eqb "-"%char) s.

(** [s.startswith(p)] *)
Definition startswith (p s : string) : bool := String.prefix p s.

(** [s[n:]] and [s[:n]] for [n >= 0]. *)
Fixpoint drop (n : nat) (s : string) : string :=
  match n, s with
  | O, _ => s
  | S k, EmptyString => EmptyString
  | S k, String _ r => drop k r
  end.

Fixpoint take (n : nat) (s : string) : string :=
  match n, s with
  | O, _ => EmptyString
  | S k, EmptyString => EmptyString
  | S k, String c r => String c (take k r)
  end.

Definition cons_head (c : ascii) (parts : list string) : list string :=
  match parts with
  | [] => [String c EmptyString]
  | h :: t => String c h :: t
  end.

(** [s.split(sep)] for a non-empty separator: [skip] counts the characters
    of a separator occurrence still to be passed over. *)
Fixpoint split_from (sep s : string) (skip : nat) : list string :=
  match s with
  | EmptyString => [EmptyString]
  | String c r =>
      match skip with
      | S k => split_from sep r k
      | O =>
          if String.prefix sep s
          then EmptyString :: split_from sep r (String.length sep - 1)
          else cons_head c (split_from sep r 0)
      end
  end.

Definition split (sep s : string) : list string := split_from sep s 0.

(** [s.split(sep, 1)] for a one-character separator. *)
Fixpoint split_once (sep : ascii) (s : string) : list string :=
  match s with
  | EmptyString => [EmptyString]
  | String c r =>
      if Ascii.eqb c sep then [EmptyString; r]
      else cons_head c (split_once sep r)
  end.

(** [sep.join(parts)] *)
Fixpoint join (sep : string) (parts : list string) : string :=
  match parts with
  | [] => EmptyString
  | [p] => p
  | p :: rest => p ++ sep ++ join sep rest
  end.

(** [s.replace(old, new)] for a non-empty [old]. *)
Fixpoint replace_from (old new s : string) (skip : nat) : string :=
  match s with
  | EmptyString => EmptyString
  | String c r =>
      match skip with
      | S k => replace_from old new r k
      | O =>
          if String.prefix old s
          then new ++ replace_from old new r (String.length old - 1)
          else String c (replace_from old new r 0)
      end
  end.

Definition replace (old new s : string) : string := replace_from old new s 0.

(** [s.title()]: a character that follows a cased character is
    lower-cased, any other character is title-cased. *)
Fixpoint title_from (prev_cased : bool) (s : string) : string :=
  match s with
  | EmptyString => EmptyString
  | String c r =>
      (if prev_cased then String (lower_char c) EmptyString else title_char c)
        ++ title_from (is_cased c) r
  end.

Definition title (s : string) : string := title_from false s.

(** [str(n)] for a natural number. *)
Definition of_nat (n : nat) : string := NilEmpty.string_of_uint (Nat.to_uint n).

End Str.

(** List indexing [l[i]] and [l[-1]], which raise [IndexError]. *)
Definition index_error : exn := Exn IndexError "list index out of range".

Definition py_index {A : Type} (l : list A) (i : nat) : result A :=
  match nth_error l i with
  | Some x => Ok x
  | None => Raise index_error
  end.

Definition py_last {A : Type} (l : list A) : result A :=
  py_index (List.rev l) 0.

(** ** Conversions used by the orchestrator *)

Definition dq : string := String (ascii_of_nat 34) EmptyString.
Definition sq : string := String (ascii_of_nat 39) EmptyString.
Definition bs : string := String (ascii_of_nat 92) EmptyString.
Definition nl : string := String (ascii_of_nat 10) EmptyString.

Module Repr.

Definition hex_digit (n : N) : ascii :=
  if (n <? 10)%N then ascii_of_N (48 + n) else ascii_of_N (87 + n).

Definition hex_escape (c : ascii) : string :=
  let n := Str.code c in
  bs ++ "x" ++ String (hex_digit (n / 16)) (String (hex_digit (n mod 16)) EmptyString).

Fixpoint contains (c : ascii) (s : string) : bool :=
  match s with
  | EmptyString => false
  | String c' r => Ascii.eqb c c' || contains c r
  end.

(** Code points below 256 that [repr] writes as they are. *)
Definition printable (c : ascii) : bool :=
  let n := Str.code c in
  ((32 <=? n) && (n <? 127) || (161 <=? n) && negb (n =? 173))%N.

Fixpoint escape (quote : ascii) (s : string) : string :=
  match s with
  | EmptyString => EmptyString
  | String c r =>
      let n := Str.code c in
      (if Ascii.eqb c quote || (n =? 92)%N then bs ++ String c EmptyString
       else if (n =? 9)%N then bs ++ "t"
       else if (n =? 10)%N then bs ++ "n"
       else if (n =? 13)%N then bs ++ "r"
       else if printable c then String c EmptyString
       else hex_escape c) ++ escape quote r
  end.

(** [repr(s)] for a [str]. *)
Definition of_str (s : string) : string :=
  let single := ascii_of_nat 39 in
  let double := ascii_of_nat 34 in
  let quote := if contains single s && negb (contains double s) then double else single in
  String quote (escape quote s ++ String quote EmptyString).

End Repr.

(** *** [int] *)

(** The characters [int] skips around a literal: ASCII whitespace and, above
    127, the two spaces of the range. *)
Definition int_space (c : ascii) : bool :=
  let n := Str.code c in
  ((9 <=? n) && (n <=? 13) || (n =? 32) || (n =? 133) || (n =? 160))%N.

(** The run of digits and underscores at the head of [s]: its value, its
    number of digits and what follows it; [None] for two underscores in a row
    or an underscore at the end of the run. *)
Fixpoint scan_digits (acc : Z) (digits : nat) (prev_underscore : bool) (s : string)
  : option (Z * nat * string) :=
  match s with
  | EmptyString => if prev_underscore then None else Some (acc, digits, s)
  | String c r =>
      if Str.is_ascii_digit c
      then scan_digits (10 * acc + (Z.of_N (Str.code c) - 48)) (S digits) false r
      else if Ascii.eqb c "_"%char
           then if prev_underscore then None else scan_digits acc digits true r
           else if prev_underscore then None else Some (acc, digits, s)
  end.

(** The default of [sys.get_int_max_str_digits()]. *)
Definition int_max_str_digits : nat := 4300.

Inductive int_literal : Type :=
| IntValue (z : Z)
| TooManyDigits (digits : nat)
| InvalidLiteral.

(** The digits after the sign.  The limit on the number of digits is
    checked before what follows the digits is looked at. *)
Definition int_of_digits (negative : bool) (s : string) : int_literal :=
  match s with
  | String "_"%char _ => InvalidLiteral
  | _ =>
      match scan_digits 0 0 false s with
      | None => InvalidLiteral
      | Some (z, digits, rest) =>
          if (int_max_str_digits <? digits)%nat then TooManyDigits digits
          else
            match digits, Str.lstrip_with int_space rest with
            | S _, EmptyString => IntValue (if negative then - z else z)
            | _, _ => InvalidLiteral
            end
      end
  end.

(** [int(s)] for a [str], base 10. *)
Definition int_of_str (s : string) : int_literal :=
  match Str.lstrip_with int_space s with
  | String "-"%char r => int_of_digits true r
  | String "+"%char r => int_of_digits false r
  | t => int_of_digits false t
  end.

(** [int(f)] for a finite float: rounding towards zero. *)
Definition float_truncate (m e : Z) : Z :=
  if (0 <=? e)%Z then m * 2 ^ e else Z.quot m (2 ^ (- e)).

Definition type_name (v : pyval) : string :=
  match v with
  | PyNone => "NoneType"
  | PyBool _ => "bool"
  | PyInt _ => "int"
  | PyFloat _ => "float"
  | PyStr _ => "str"
  | PyList _ => "list"
  | PyDict _ => "dict"
  end.

(** [int(v)].  The message about a literal shows at most 200 characters of
    the [repr]. *)
Definition py_int (v : pyval) : result Z :=
  match v with
  | PyInt z => Ok z
  | PyBool b => Ok (if b then 1 else 0)
  | PyFloat (Finite m e) => Ok (float_truncate m e)
  | PyFloat (Infinity _) =>
      Raise (Exn OverflowError "cannot convert float infinity to integer")
  | PyFloat NaN => Raise (Exn ValueError "cannot convert float NaN to integer")
  | PyStr s =>
      match int_of_str s with
      | IntValue z => Ok z
      | TooManyDigits digits =>
          Raise (Exn ValueError
                   ("Exceeds the limit (" ++ Str.of_nat int_max_str_digits
                      ++ " digits) for integer string conversion: value has "
                      ++ Str.of_nat digits
                      ++ " digits; use sys.set_int_max_str_digits() to increase the limit"))
      | InvalidLiteral =>
          Raise (Exn ValueError
                   ("invalid literal for int() with base 10: "
                      ++ Str.take 200 (Repr.of_str s)))
      end
  | _ =>
      Raise (Exn TypeError
               ("int() argument must be a string, a bytes-like object or a real number, not "
                  ++ sq ++ type_name v ++ sq))
  end.

(** [x is None] *)
Definition is_none (v : pyval) : bool :=
  match v with PyNone => true | _ => false end.

(** ** Collaborators and the calls made to them *)

Record search_request : Type := SearchRequest {
  query : string;
  include_domains : list string;
  max_results : Z;
  search_depth : string;
  days : Z
}.

(** One entry of the search service's ['results'] list; [None] is an absent key. *)
Record raw_hit : Type := RawHit {
  raw_url : option string;
  raw_title : option string;
  raw_content : option string;
  raw_score : option Q;
  raw_published_date : option string
}.

(** The normalised hit dictionary built by the search stage. *)
Record hit : Type := Hit {
  url : string;
  title : string;
  content : string;
  score : Q;
  published_date : string
}.

Inductive call : Type :=
| CallConfigure (tavily_api_key gemini_api_key : string)
| CallGenerate (prompt : string)
| CallSearch (req : search_request).

Definition trace := list call.

(** The outside world.  [make_clients] is the construction of the two
    handles ([None]: it succeeded); [generate_content] is
    [model.generate_content(prompt).text]; [tavily_search] is
    [client.search(...)], whose answer is the list under ['results'], or
    [None] when that key is absent. *)
Record collaborators : Type := Collaborators {
  make_clients : string -> string -> option exn;
  generate_content : trace -> string -> result string;
  tavily_search : trace -> search_request -> result (option (list raw_hit))
}.

(** ** Computations: calls so far are threaded, exceptions propagate *)

Definition M (A : Type) : Type := trace -> result A * trace.

Definition ret {A : Type} (a : A) : M A := fun t => (Ok a, t).

Definition raise {A : Type} (e : exn) : M A := fun t => (Raise e, t).

Definition lift {A : Type} (r : result A) : M A := fun t => (r, t).

Definition bind {A B : Type} (m : M A) (k : A -> M B) : M B :=
  fun t =>
    match m t with
    | (Ok a, t') => k a t'
    | (Raise e, t') => (Raise e, t')
    end.

(** [try: m  except Exception as e: h e] *)
Definition try_except {A : Type} (m : M A) (h : exn -> M A) : M A :=
  fun t =>
    match m t with
    | (Ok a, t') => (Ok a, t')
    | (Raise e, t') => h e t'
    end.

Declare Scope py_scope.
Delimit Scope py_scope with py.
Notation "x <- m ;; k" := (bind m (fun x => k))
  (at level 61, m at next level, right associativity) : py_scope.
Notation "m ;;; k" := (bind m (fun _ => k))
  (at level 61, right associativity) : py_scope.
Open Scope py_scope.

Definition call_configure (W : collaborators) (tavily_api_key gemini_api_key : string)
  : M unit :=
  fun t =>
    (match make_clients W tavily_api_key gemini_api_key with
     | None => Ok tt
     | Some e => Raise e
     end,
     (t ++ [CallConfigure tavily_api_key gemini_api_key])%list).

Definition call_generate (W : collaborators) (prompt : string) : M string :=
  fun t => (generate_content W t prompt, (t ++ [CallGenerate prompt])%list).

Definition call_search (W : collaborators) (req : search_request)
  : M (option (list raw_hit)) :=
  fun t => (tavily_search W t req, (t ++ [CallSearch req])%list).

(** ** The pipeline *)

Definition INDIAN_NEWS_DOMAINS : list string :=
  [ "timesofindia.indiatimes.com";
    "thehindu.com";
    "hindustantimes.com";
    "indianexpress.com";
    "ndtv.com";
    "thequint.com";
    "thewire.in";
    "scroll.in";
    "news18.com";
    "zeenews.india.com";
    "dnaindia.com";
    "deccanherald.com";
    "firstpost.com";
    "livemint.com";
    "businesstoday.in";
    "economictimes.indiatimes.com";
    "moneycontrol.com";
    "outlookindia.com";
    "newslaundry.com";
    "india.com";
    "mumbaimirror.indiatimes.com";
    "tribuneindia.com";
    "newindianexpress.com";
    "freepressjournal.in" ].

(** A triple-quoted literal: every line is followed by a newline. *)
Definition text_block (lines : list string) : string :=
  String.concat EmptyString (map (fun l => l ++ nl) lines).

(** [enumerate(l)], counting from [i]. *)
Fixpoint enumerate_from {A : Type} (i : nat) (l : list A) : list (nat * A) :=
  match l with
  | [] => []
  | x :: rest => (i, x) :: enumerate_from (S i) rest
  end.

Definition enumerate {A : Type} (l : list A) : list (nat * A) := enumerate_from 0 l.

(** ["REAL" if is_real else "FAKE"] *)
Definition label_of (is_real : bool) : string := if is_real then "REAL" else "FAKE".

(** *** configure_apis *)

Definition configure_apis (W : collaborators) (tavily_api_key gemini_api_key : string)
  : M unit :=
  try_except (call_configure W tavily_api_key gemini_api_key)
    (fun e => raise (Exn PlainException ("API configuration failed: " ++ exn_str e))).

(** *** extract_claims_for_verification *)

Definition claims_prompt (news_text image_text : string) (is_real : bool) : string :=
  let combined_text := "News Text: " ++ news_text in
  let combined_text :=
    if Str.truthy image_text
    then combined_text ++ nl ++ nl ++ "Image Description: " ++ image_text
    else combined_text in
  text_block
    [ "This news article is labeled as " ++ label_of is_real ++ ".";
      "Extract 3-5 key verifiable claims that can be fact-checked to "
        ++ (if is_real then "confirm" else "debunk") ++ " this article.";
      "";
      "Article:";
      combined_text;
      "";
      "Return ONLY a numbered list of claims to verify, one per line.";
      "Format:";
      "1. [claim]";
      "2. [claim]";
      "3. [claim]" ].

(** The body of the [for line in ...] loop: the claim a line contributes. *)
Definition claim_of_line (line : string) : result (option string) :=
  let line := Str.strip line in
  match line with
  | EmptyString => Ok None
  | String c0 _ =>
      if Str.isdigit c0 || Str.startswith "-" line then
        match py_last (Str.split_once "."%char line) with
        | Raise e => Raise e
        | Ok claim =>
            let claim := Str.strip claim in
            let claim := Str.strip (Str.lstrip_dash claim) in
            if Str.truthy claim then Ok (Some claim) else Ok None
        end
      else Ok None
  end.

Fixpoint claims_loop (lines : list string) (claims : list string) : result (list string) :=
  match lines with
  | [] => Ok claims
  | line :: rest =>
      match claim_of_line line with
      | Raise e => Raise e
      | Ok (Some claim) => claims_loop rest (claims ++ [claim])%list
      | Ok None => claims_loop rest claims
      end
  end.

(** Everything between the service call and the [return]. *)
Definition parse_claims (response_text : string) : result (list string) :=
  let claims_text := Str.strip response_text in
  match claims_loop (Str.split nl claims_text) [] with
  | Raise e => Raise e
  | Ok claims => Ok (firstn 5 claims)
  end.

Definition extract_claims_for_verification (W : collaborators)
    (news_text image_text : string) (is_real : bool) : M (list string) :=
  try_except
    (response_text <- call_generate W (claims_prompt news_text image_text is_real) ;;
     lift (parse_claims response_text))
    (fun _ => ret []).

(** *** search_supporting_evidence *)

Definition search_query (claims : list string) (is_real : bool) : string :=
  if is_real
  then Str.join " OR " claims ++ " confirmed true verified"
  else Str.join " OR " claims ++ " false fake debunked hoax misinformation".

Definition evidence_request (claims : list string) (is_real : bool) : search_request :=
  {| query := search_query claims is_real;
     include_domains := INDIAN_NEWS_DOMAINS;
     max_results := 20;
     search_depth := "advanced";
     days := 365 |}.

Definition get_or {A : Type} (o : option A) (default : A) : A :=
  match o with Some a => a | None => default end.

Definition normalise_hit (r : raw_hit) : hit :=
  {| url := get_or (raw_url r) "";
     title := get_or (raw_title r) "";
     content := get_or (raw_content r) "";
     score := get_or (raw_score r) 0%Q;
     published_date := get_or (raw_published_date r) "" |}.

Definition search_supporting_evidence (W : collaborators)
    (claims : list string) (is_real : bool) : M (list hit) :=
  try_except
    (search_results <- call_search W (evidence_request claims is_real) ;;
     ret (match search_results with
          | Some results => map normalise_hit results
          | None => []
          end))
    (fun _ => ret []).

(** *** select_top_5_with_explanations *)

Definition result_bind {A B : Type} (r : result A) (k : A -> result B) : result B :=
  match r with
  | Ok a => k a
  | Raise e => Raise e
  end.

(** A list comprehension whose element expression can raise. *)
Fixpoint map_result {A B : Type} (f : A -> result B) (l : list A) : result (list B) :=
  match l with
  | [] => Ok []
  | x :: rest =>
      result_bind (f x) (fun y =>
      result_bind (map_result f rest) (fun ys => Ok (y :: ys)))
  end.

Definition quoted (s : string) : string := dq ++ s ++ dq.

Definition sources_text (search_results : list hit) : string :=
  Str.join (nl ++ nl)
    (map (fun ir : nat * hit =>
            let (i, r) := ir in
            "Source " ++ Str.of_nat (i + 1) ++ ":" ++ nl
              ++ "Title: " ++ title r ++ nl
              ++ "URL: " ++ url r ++ nl
              ++ "Content: " ++ Str.take 400 (content r) ++ "...")
         (enumerate (firstn 15 search_results))).

Definition ranking_prompt (news_text image_text : string) (is_real : bool)
    (claims : list string) (search_results : list hit) : string :=
  let label := label_of is_real in
  text_block
    [ "You are a fact-checking expert. This news article is labeled as " ++ label ++ ".";
      "";
      "ORIGINAL NEWS:";
      news_text;
      "";
      "IMAGE DESCRIPTION:";
      image_text;
      "";
      "KEY CLAIMS TO VERIFY:";
      Str.join nl (map (fun ic : nat * string =>
                          let (i, claim) := ic in Str.of_nat (i + 1) ++ ". " ++ claim)
                       (enumerate claims));
      "";
      "SOURCES FOUND:";
      sources_text search_results;
      "";
      "TASK:";
      "1. Select the TOP 5 MOST RELEVANT sources that provide evidence about whether this news is "
        ++ label;
      "2. For each source, explain HOW it supports the " ++ label ++ " label";
      "3. Provide an overall explanation of WHY this news is " ++ label
        ++ " based on these sources";
      "";
      "Return in this EXACT JSON format (no markdown, no code blocks):";
      "{";
      "    " ++ quoted "label" ++ ": " ++ quoted label ++ ",";
      "    " ++ quoted "overall_explanation" ++ ": "
        ++ quoted ("<2-3 sentences explaining WHY this news is " ++ label ++ ">") ++ ",";
      "    " ++ quoted "top_5_sources" ++ ": [";
      "        {";
      "            " ++ quoted "rank" ++ ": 1,";
      "            " ++ quoted "url" ++ ": " ++ quoted "<url>" ++ ",";
      "            " ++ quoted "title" ++ ": " ++ quoted "<title>" ++ ",";
      "            " ++ quoted "source_name" ++ ": " ++ quoted "<news outlet name>" ++ ",";
      "            " ++ quoted "relevance" ++ ": " ++ quoted "<high/medium/low>" ++ ",";
      "            " ++ quoted "explanation" ++ ": "
        ++ quoted ("<1-2 sentences explaining how this source "
                     ++ (if is_real then "confirms" else "debunks") ++ " the news>");
      "        }";
      "    ]";
      "}" ].

(** The "clean up response" lines. *)
Definition clean_response (response_text : string) : result string :=
  let response_text := Str.strip response_text in
  result_bind
    (if Str.startswith "```" response_text then
       result_bind (py_index (Str.split "```" response_text) 1) (fun inner =>
       Ok (if Str.startswith "json" inner then Str.drop 4 inner else inner))
     else Ok response_text)
    (fun response_text => Ok (Str.strip response_text)).

(** [url.split('/')[2].replace('www.', '').split('.')[0].title()] *)
Definition source_name_of (u : string) : result string :=
  result_bind (py_index (Str.split "/" u) 2) (fun host =>
  result_bind (py_index (Str.split "." (Str.replace "www." "" host)) 0) (fun name =>
  Ok (Str.title name))).

Definition result_dict (label overall_explanation : string) (sources : list pyval) : pyval :=
  PyDict [ ("label", PyStr label);
           ("overall_explanation", PyStr overall_explanation);
           ("top_5_sources", PyList sources) ].

Definition fallback_source (ir : nat * hit) : result pyval :=
  let (i, r) := ir in
  result_bind (source_name_of (url r)) (fun name =>
  Ok (PyDict [ ("rank", PyInt (Z.of_nat (i + 1)));
               ("url", PyStr (url r));
               ("title", PyStr (title r));
               ("source_name", PyStr name);
               ("relevance", PyStr "medium");
               ("explanation",
                PyStr "This source provides information related to the claims in the article.") ])).

(** The dictionary built in the [except json.JSONDecodeError] handler. *)
Definition fallback_result (is_real : bool) (search_results : list hit) : result pyval :=
  result_bind (map_result fallback_source (enumerate (firstn 5 search_results)))
    (fun sources =>
       Ok (result_dict (label_of is_real)
             ("Analysis indicates this news appears to be "
                ++ (if is_real then "real" else "fake") ++ " based on available sources.")
             sources)).

(** The dictionary built in the [except Exception] handler. *)
Definition analysis_error_result (is_real : bool) (e : exn) : pyval :=
  result_dict (label_of is_real) ("Error during analysis: " ++ exn_str e) [].

(** *** Inputs and results of verify_news_with_ground_truth *)

(** The input record.  [None] is an absent key; the three text fields are
    strings when present, the Real/Fake field is any value. *)
Record news_input : Type := NewsInput {
  Text : option string;
  Imagetext : option string;
  Link_text : option string;
  Real_Fake : option pyval
}.

Definition empty_claims_result (is_real : bool) : pyval :=
  result_dict (label_of is_real) "Could not extract claims for verification" [].

Definition no_evidence_result (is_real : bool) : pyval :=
  result_dict (label_of is_real)
    ("No supporting sources found to " ++ (if is_real then "verify" else "debunk")
       ++ " this news")
    [].

Definition error_result (message : string) : pyval :=
  PyDict [ ("label", PyStr "ERROR");
           ("overall_explanation", PyStr ("Error during verification: " ++ message));
           ("top_5_sources", PyList []);
           ("error", PyStr message) ].

Section Pipeline.

(** [json.loads], the standard library's decoder. *)
Variable json_loads : string -> result pyval.

Variable W : collaborators.

Definition select_top_5_with_explanations
    (news_text image_text : string) (is_real : bool)
    (claims : list string) (search_results : list hit) : M pyval :=
  try_except
    (response_text <-
       call_generate W (ranking_prompt news_text image_text is_real claims search_results) ;;
     response_text <- lift (clean_response response_text) ;;
     lift (json_loads response_text))
    (fun e =>
       if is_json_decode_error e
       then lift (fallback_result is_real search_results)
       else ret (analysis_error_result is_real e)).

(** *** verify_news_with_ground_truth *)

(** The [try] block of the orchestrator. *)
Definition verify_body (inp : news_input) (tavily_api_key gemini_api_key : string)
  : M pyval :=
  let news_text := get_or (Text inp) "" in
  let image_text := get_or (Imagetext inp) "" in
  let link_text := get_or (Link_text inp) "" in
  let real_fake_label := get_or (Real_Fake inp) PyNone in
  if negb (Str.truthy news_text) then
    raise (Exn ValueError "News text is required")
  else if is_none real_fake_label then
    raise (Exn ValueError "Real/Fake label is required (1 for real, 0 for fake)")
  else
    z <- lift (py_int real_fake_label) ;;
    let is_real := negb (z =? 0)%Z in
    _ <- configure_apis W tavily_api_key gemini_api_key ;;
    claims <- extract_claims_for_verification W news_text image_text is_real ;;
    match claims with
    | [] => ret (empty_claims_result is_real)
    | _ :: _ =>
        search_results <- search_supporting_evidence W claims is_real ;;
        match search_results with
        | [] => ret (no_evidence_result is_real)
        | _ :: _ =>
            select_top_5_with_explanations news_text image_text is_real claims search_results
        end
    end.

Definition verify_news_with_ground_truth
    (inp : news_input) (tavily_api_key gemini_api_key : string) : M pyval :=
  try_except (verify_body inp tavily_api_key gemini_api_key)
    (fun e => ret (error_result (exn_str e))).

End Pipeline.

(** ** A decoder for concrete runs

    [Json.loads] follows [json.loads]: objects, arrays, strings with their
    escapes, integers (with the limit of [int] on the number of digits),
    floats rounded to the nearest double, [NaN], [Infinity], [-Infinity],
    [true], [false] and [null].  Two things have no counterpart in the
    embedding: an escape that denotes a code point above 255, which a
    [string] cannot hold and which is reported as undecodable, and the
    interpreter's bound on nesting depth.  The theorems about the pipeline
    hold for every decoder. *)

Module Json.

(** The text of a decode error is only printed by the pipeline. *)
Definition decode_error : exn := Exn JSONDecodeError "Expecting value".

Definition is_ws (c : ascii) : bool :=
  let n := Str.code c in ((n =? 32) || (n =? 9) || (n =? 10) || (n =? 13))%N.

Definition skip_ws (s : string) : string := Str.lstrip_with is_ws s.

Definition unescape (c : ascii) : option ascii :=
  let n := Str.code c in
  if (n =? 34)%N then Some c                       (* quotation mark *)
  else if (n =? 92)%N then Some c                  (* backslash *)
  else if (n =? 47)%N then Some c                  (* slash *)
  else if (n =? 98)%N then Some (ascii_of_nat 8)   (* b *)
  else if (n =? 102)%N then Some (ascii_of_nat 12) (* f *)
  else if (n =? 110)%N then Some (ascii_of_nat 10) (* n *)
  else if (n =? 114)%N then Some (ascii_of_nat 13) (* r *)
  else if (n =? 116)%N then Some (ascii_of_nat 9)  (* t *)
  else None.

Definition hex_value (c : ascii) : option N :=
  let n := Str.code c in
  if ((48 <=? n) && (n <=? 57))%N then Some (n - 48)%N
  else if ((97 <=? n) && (n <=? 102))%N then Some (n - 87)%N
  else if ((65 <=? n) && (n <=? 70))%N then Some (n - 55)%N
  else None.

(** The character written by four hexadecimal digits, when it is below 256. *)
Definition hex4 (a b c d : ascii) : option ascii :=
  match hex_value a, hex_value b, hex_value c, hex_value d with
  | Some x, Some y, Some z, Some w =>
      let n := (((x * 16 + y) * 16 + z) * 16 + w)%N in
      if (n <? 256)%N then Some (ascii_of_N n) else None
  | _, _, _, _ => None
  end.

Definition with_head (c : ascii) (p : option (string * string)) : option (string * string) :=
  match p with
  | Some (body, rest) => Some (String c body, rest)
  | None => None
  end.

(** The characters after an opening quotation mark, up to the closing one. *)
Fixpoint string_body (s : string) : option (string * string) :=
  match s with
  | EmptyString => None
  | String c r =>
      let n := Str.code c in
      if (n =? 34)%N then Some (EmptyString, r)
      else if (n =? 92)%N then
        match r with
        | String e r' =>
            if (Str.code e =? 117)%N then
              match r' with
              | String a (String b (String c' (String d rest))) =>
                  match hex4 a b c' d with
                  | Some x => with_head x (string_body rest)
                  | None => None
                  end
              | _ => None
              end
            else
              match unescape e with
              | Some c' => with_head c' (string_body r')
              | None => None
              end
        | EmptyString => None
        end
      else if (n <? 32)%N then None
      else with_head c (string_body r)
  end.

(** The digits at the head of [s]: their value, their number, the rest. *)
Fixpoint digit_run (acc : Z) (count : nat) (s : string) : Z * nat * string :=
  match s with
  | String c r =>
      if Str.is_ascii_digit c
      then digit_run (10 * acc + (Z.of_N (Str.code c) - 48)) (S count) r
      else (acc, count, s)
  | EmptyString => (acc, count, s)
  end.

(** The integer part of a number: a single [0], or digits not starting
    with [0]. *)
Definition natural (s : string) : option (Z * nat * string) :=
  match s with
  | String c r =>
      if (Str.code c =? 48)%N then Some (0, 1%nat, r)
      else if Str.is_ascii_digit c then Some (digit_run 0 0 s)
      else None
  | EmptyString => None
  end.

(** A fraction: a full stop and at least one digit. *)
Definition fraction (s : string) : option (Z * nat * string) :=
  match s with
  | String "."%char (String c _ as digits) =>
      if Str.is_ascii_digit c then Some (digit_run 0 0 digits) else None
  | _ => None
  end.

(** An exponent: [e] or [E], a sign or none, and at least one digit. *)
Definition exponent (s : string) : option (Z * string) :=
  match s with
  | String c r =>
      if ((Str.code c =? 101) || (Str.code c =? 69))%N then
        match r with
        | String sign r' =>
            if Str.is_ascii_digit sign then
              let '(v, _, rest) := digit_run 0 0 r in Some (v, rest)
            else if ((Str.code sign =? 43) || (Str.code sign =? 45))%N then
              match r' with
              | String d _ =>
                  if Str.is_ascii_digit d then
                    let '(v, _, rest) := digit_run 0 0 r' in
                    Some (if (Str.code sign =? 45)%N then - v else v, rest)
                  else None
              | EmptyString => None
              end
            else None
        | EmptyString => None
        end
      else None
  | EmptyString => None
  end.

(** [floor (log2 (n / d))] for positive [n] and [d]. *)
Definition floor_log2_ratio (n d : Z) : Z :=
  let k := Z.log2 n - Z.log2 d in
  if (if 0 <=? k then d * 2 ^ k <=? n else d <=? n * 2 ^ (- k))%Z then k else k - 1.

(** The double nearest to [n / d] (positive [n] and [d]), ties to the even
    mantissa; subnormal below [2^-1022], infinite from [2^1024]. *)
Definition nearest_double (n d : Z) : pyfloat :=
  let e := Z.max (floor_log2_ratio n d - 52) (-1074) in
  let num := if (0 <=? e)%Z then n else n * 2 ^ (- e) in
  let den := if (0 <=? e)%Z then d * 2 ^ e else d in
  let q := num / den in
  let r := num mod den in
  let m := if ((den <? 2 * r) || ((den =? 2 * r) && Z.odd q))%Z then q + 1 else q in
  if ((0 <=? e) && (2 ^ 1024 <=? m * 2 ^ e))%Z then Infinity false else Finite m e.

(** [float] of the literal with the digits [d] ([digits] of them) and the
    decimal exponent [e10].  Far outside the range of the doubles the result
    is known without the division. *)
Definition float_of_decimal (negative : bool) (d : Z) (digits : nat) (e10 : Z) : pyfloat :=
  if (d =? 0)%Z then Finite 0 0
  else if (400 <? e10)%Z then Infinity negative
  else if (e10 + Z.of_nat digits <? -400)%Z then Finite 0 0
  else
    match (if (0 <=? e10)%Z then nearest_double (d * 10 ^ e10) 1
           else nearest_double d (10 ^ (- e10))) with
    | Finite m e => Finite (if negative then - m else m) e
    | Infinity _ => Infinity negative
    | NaN => NaN
    end.

Definition too_many_digits (digits : nat) : exn :=
  Exn ValueError
    ("Exceeds the limit (" ++ Str.of_nat int_max_str_digits
       ++ " digits) for integer string conversion: value has " ++ Str.of_nat digits
       ++ " digits; use sys.set_int_max_str_digits() to increase the limit").

(** A number after its sign: an [int] when it has neither fraction nor
    exponent, a [float] otherwise. *)
Definition number (negative : bool) (s : string) : result (pyval * string) :=
  match natural s with
  | None => Raise decode_error
  | Some (i, ni, r1) =>
      match fraction r1, exponent (match fraction r1 with
                                   | Some (_, _, r2) => r2
                                   | None => r1
                                   end) with
      | None, None =>
          if (int_max_str_digits <? ni)%nat then Raise (too_many_digits ni)
          else Ok (PyInt (if negative then - i else i), r1)
      | Some (f, nf, r2), None =>
          Ok (PyFloat (float_of_decimal negative (i * 10 ^ Z.of_nat nf + f) (ni + nf)
                         (- Z.of_nat nf)), r2)
      | None, Some (e10, r3) =>
          Ok (PyFloat (float_of_decimal negative i ni e10), r3)
      | Some (f, nf, _), Some (e10, r3) =>
          Ok (PyFloat (float_of_decimal negative (i * 10 ^ Z.of_nat nf + f) (ni + nf)
                         (e10 - Z.of_nat nf)), r3)
      end
  end.

Fixpoint value (fuel : nat) (s : string) : result (pyval * string) :=
  match fuel with
  | O => Raise decode_error
  | S fuel' =>
      match s with
      | EmptyString => Raise decode_error
      | String c r =>
          let n := Str.code c in
          if (n =? 34)%N then
            match string_body r with
            | Some (body, rest) => Ok (PyStr body, rest)
            | None => Raise decode_error
            end
          else if (n =? 91)%N then
            match skip_ws r with
            | String "]"%char rest => Ok (PyList [], rest)
            | r' => match elements fuel' r' with
                    | Ok (xs, rest) => Ok (PyList xs, rest)
                    | Raise e => Raise e
                    end
            end
          else if (n =? 123)%N then
            match skip_ws r with
            | String "}"%char rest => Ok (PyDict [], rest)
            | r' => match members fuel' [] r' with
                    | Ok (kvs, rest) => Ok (PyDict kvs, rest)
                    | Raise e => Raise e
                    end
            end
          else if Str.startswith "null" s then Ok (PyNone, Str.drop 4 s)
          else if Str.startswith "true" s then Ok (PyBool true, Str.drop 4 s)
          else if Str.startswith "false" s then Ok (PyBool false, Str.drop 5 s)
          else if Str.startswith "NaN" s then Ok (PyFloat NaN, Str.drop 3 s)
          else if Str.startswith "Infinity" s then Ok (PyFloat (Infinity false), Str.drop 8 s)
          else if Str.startswith "-Infinity" s
               then Ok (PyFloat (Infinity true), Str.drop 9 s)
          else if (n =? 45)%N then number true r
          else number false s
      end
  end

(** The elements of an array after the opening bracket (not empty). *)
with elements (fuel : nat) (s : string) : result (list pyval * string) :=
  match fuel with
  | O => Raise decode_error
  | S fuel' =>
      match value fuel' s with
      | Ok (x, rest) =>
          match skip_ws rest with
          | String "]"%char rest' => Ok ([x], rest')
          | String ","%char rest' =>
              match elements fuel' (skip_ws rest') with
              | Ok (xs, rest'') => Ok (x :: xs, rest'')
              | Raise e => Raise e
              end
          | _ => Raise decode_error
          end
      | Raise e => Raise e
      end
  end

(** The members of an object after the opening brace (not empty); a
    repeated key overwrites the earlier value. *)
with members (fuel : nat) (acc : list (string * pyval)) (s : string)
  : result (list (string * pyval) * string) :=
  match fuel with
  | O => Raise decode_error
  | S fuel' =>
      match s with
      | String c r =>
          if (Str.code c =? 34)%N then
            match string_body r with
            | Some (key, rest) =>
                match skip_ws rest with
                | String ":"%char rest' =>
                    match value fuel' (skip_ws rest') with
                    | Ok (v, rest'') =>
                        let acc' := assoc_set key v acc in
                        match skip_ws rest'' with
                        | String "}"%char rest3 => Ok (acc', rest3)
                        | String ","%char rest3 => members fuel' acc' (skip_ws rest3)
                        | _ => Raise decode_error
                        end
                    | Raise e => Raise e
                    end
                | _ => Raise decode_error
                end
            | None => Raise decode_error
            end
          else Raise decode_error
      | EmptyString => Raise decode_error
      end
  end.

Definition loads (s : string) : result pyval :=
  match value (2 * String.length s + 2) (skip_ws s) with
  | Ok (v, rest) =>
      match skip_ws rest with
      | EmptyString => Ok v
      | _ => Raise decode_error
      end
  | Raise e => Raise e
  end.

End Json.

(** ** Derived notions used to state the properties *)

(** A fresh invocation of the orchestrator: no call has been made yet. *)
Definition run_pipeline (json_loads : string -> result pyval) (W : collaborators)
    (inp : news_input) (tavily_api_key gemini_api_key : string) : result pyval * trace :=
  verify_news_with_ground_truth json_loads W inp tavily_api_key gemini_api_key [].

(** The claims obtained from an outcome of the text-generation call. *)
Definition claims_of_outcome (r : result string) : list string :=
  match result_bind r parse_claims with
  | Ok claims => claims
  | Raise _ => []
  end.

(** The hits obtained from an outcome of the search call. *)
Definition hits_of_outcome (r : result (option (list raw_hit))) : list hit :=
  match r with
  | Ok (Some results) => map normalise_hit results
  | _ => []
  end.

(** What the ranking stage makes of an outcome of the text-generation call. *)
Definition ranking_of_outcome (json_loads : string -> result pyval)
    (is_real : bool) (search_results : list hit) (r : result string) : result pyval :=
  match result_bind r (fun text => result_bind (clean_response text) json_loads) with
  | Ok v => Ok v
  | Raise e =>
      if is_json_decode_error e
      then fallback_result is_real search_results
      else Ok (analysis_error_result is_real e)
  end.

(** The stages after validation, for a label that converted to [z]. *)
Definition stages_outcome (json_loads : string -> result pyval) (W : collaborators)
    (tk gk : string) (news_text image_text : string) (z : Z) : result pyval * trace :=
  let is_real := negb (z =? 0)%Z in
  let t0 := [CallConfigure tk gk] in
  match make_clients W tk gk with
  | Some e => (Ok (error_result ("API configuration failed: " ++ exn_str e)), t0)
  | None =>
      let p1 := claims_prompt news_text image_text is_real in
      let t1 := (t0 ++ [CallGenerate p1])%list in
      match claims_of_outcome (generate_content W t0 p1) with
      | [] => (Ok (empty_claims_result is_real), t1)
      | (_ :: _) as claims =>
          let q := evidence_request claims is_real in
          let t2 := (t1 ++ [CallSearch q])%list in
          match hits_of_outcome (tavily_search W t1 q) with
          | [] => (Ok (no_evidence_result is_real), t2)
          | (_ :: _) as hits =>
              let p2 := ranking_prompt news_text image_text is_real claims hits in
              (match ranking_of_outcome json_loads is_real hits (generate_content W t2 p2) with
               | Ok v => Ok v
               | Raise e => Ok (error_result (exn_str e))
               end, (t2 ++ [CallGenerate p2])%list)
          end
      end
  end.

(** The ground-truth mapping of the interface: 1 is REAL, 0 is FAKE. *)
Definition target_label (b : Z) : string := if (b =? 1)%Z then "REAL" else "FAKE".

Definition is_search_call (c : call) : bool :=
  match c with CallSearch _ => true | _ => false end.

Definition is_generate_call (c : call) : bool :=
  match c with CallGenerate _ => true | _ => false end.

(** The [rank] fields of the [top_5_sources] of a result, when it has them. *)
Definition rank_of (source : pyval) : option Z :=
  match py_get "rank" source with
  | Some (PyInt z) => Some z
  | _ => None
  end.

Fixpoint all_some {A : Type} (l : list (option A)) : option (list A) :=
  match l with
  | [] => Some []
  | Some a :: rest => option_map (cons a) (all_some rest)
  | None :: _ => None
  end.

Definition top_sources (r : pyval) : option (list pyval) :=
  match py_get "top_5_sources" r with
  | Some (PyList sources) => Some sources
  | _ => None
  end.

Definition ranks (r : pyval) : option (list Z) :=
  match top_sources r with
  | Some sources => all_some (map rank_of sources)
  | None => None
  end.

(** At most five sources, whose ranks are exactly 1..k: unique, dense from
    1 and strictly ascending. *)
Definition ranks_dense_ascending (r : pyval) : Prop :=
  exists sources rs,
    top_sources r = Some sources /\ (length sources <= 5)%nat /\
    ranks r = Some rs /\ rs = map Z.of_nat (seq 1 (length sources)) /\
    NoDup rs /\ StronglySorted Z.lt rs.

(** A source of the fallback carries the middle relevance tier. *)
Definition is_medium (source : pyval) : Prop :=
  py_get "relevance" source = Some (PyStr "medium").

(** A result object of the interface: a label among the three, an
    explanation, a list of sources. *)
Definition well_formed_result (r : pyval) : Prop :=
  exists label explanation sources,
    py_get "label" r = Some (PyStr label) /\
    In label ["REAL"; "FAKE"; "ERROR"] /\
    py_get "overall_explanation" r = Some (PyStr explanation) /\
    py_get "top_5_sources" r = Some (PyList sources).

(** The run ended in the ranking stage, whose cleaned response decoded to [v]. *)
Definition decoded_by_ranker (json_loads : string -> result pyval) (W : collaborators)
    (t : trace) (v : pyval) : Prop :=
  exists tk gk p1 q p2 response cleaned,
    t = [CallConfigure tk gk; CallGenerate p1; CallSearch q; CallGenerate p2] /\
    generate_content W [CallConfigure tk gk; CallGenerate p1; CallSearch q] p2 = Ok response /\
    clean_response response = Ok cleaned /\
    json_loads cleaned = Ok v.

(** The URL has the third ['/']-separated part the fallback reads. *)
Definition has_host (u : string) : bool :=
  (3 <=? length (Str.split "/" u))%nat.

(** Every hit the search service returns among the first five carries
    such a URL. *)
Definition hits_have_hosts (W : collaborators) : Prop :=
  forall t q results,
    tavily_search W t q = Ok (Some results) ->
    Forall (fun r => has_host (get_or (raw_url r) "") = true) (firstn 5 results).

(** ** Concrete collaborators and requests *)

Module Sample.

(** Handles are always built; the first text-generation call (made right
    after configuration) answers [claims_text], later ones [ranking_text];
    every search answers [found]. *)
Definition world (claims_text : result string)
    (found : result (option (list raw_hit))) (ranking_text : result string)
  : collaborators :=
  {| make_clients := fun _ _ => None;
     generate_content := fun t _ =>
       match t with
       | [_] => claims_text
       | _ => ranking_text
       end;
     tavily_search := fun _ _ => found |}.

Definition request (label : pyval) : news_input :=
  {| Text := Some "City launches tree-planting drive";
     Imagetext := None;
     Link_text := None;
     Real_Fake := Some label |}.

Definition numbered_claims : string :=
  "1. The city launched a tree-planting drive" ++ nl ++ "2. 10,000 trees will be planted".

Definition hindu_hit : raw_hit :=
  {| raw_url := Some "https://www.thehindu.com/news/tree-drive";
     raw_title := Some "Tree drive launched";
     raw_content := Some "The city launched a tree-planting drive.";
     raw_score := Some (1 # 2)%Q;
     raw_published_date := None |}.

(** The float 0.5, which is [1 * 2^-1]. *)
Definition half : pyval := PyFloat (Finite 1 (-1)).

(** A raw result without a [url] key. *)
Definition hit_without_url : raw_hit :=
  {| raw_url := None;
     raw_title := Some "Untitled";
     raw_content := Some "Text";
     raw_score := None;
     raw_published_date := None |}.

(** The text
    [{"label": "MAYBE", "overall_explanation": "Unclear.", "top_5_sources": []}] *)
Definition maybe_json : string :=
  "{" ++ quoted "label" ++ ": " ++ quoted "MAYBE" ++ ", "
    ++ quoted "overall_explanation" ++ ": " ++ quoted "Unclear." ++ ", "
    ++ quoted "top_5_sources" ++ ": []}".

(** The text
    [{"label": "REAL", "overall_explanation": "Confirmed.", "top_5_sources":
      [{"rank": 2}, {"rank": 2}, {"rank": 2}, {"rank": 2}, {"rank": 2}, {"rank": 2}]}] *)
Definition six_sources_json : string :=
  "{" ++ quoted "label" ++ ": " ++ quoted "REAL" ++ ", "
    ++ quoted "overall_explanation" ++ ": " ++ quoted "Confirmed." ++ ", "
    ++ quoted "top_5_sources" ++ ": ["
    ++ Str.join ", " (repeat ("{" ++ quoted "rank" ++ ": 2}") 6) ++ "]}".

End Sample.

(** ** Further notions: the prompts' formats and the command-line driver *)

(** [old in s] for a non-empty [old]. *)
Fixpoint occurs (old s : string) : bool :=
  String.prefix old s ||
  match s with
  | EmptyString => false
  | String _ r => occurs old r
  end.

(** The numbered list of the ranking prompt ([f"{i+1}. {claim}"] joined by
    newlines), which is also the format the extraction prompt asks for. *)
Definition numbered_lines (claims : list string) : string :=
  Str.join nl (map (fun ic : nat * string =>
                      let (i, claim) := ic in Str.of_nat (i + 1) ++ ". " ++ claim)
                   (enumerate claims)).

(** A claim as the extraction stage returns it and a one-line prompt can
    carry it: not empty, no surrounding whitespace, no newline, no leading
    dash. *)
Definition tidy_claim (c : string) : Prop :=
  c <> "" /\ Str.strip c = c /\ occurs nl c = false /\ Str.lstrip_dash c = c.

(** What holds of one line [L] of the numbered list carrying the claim [c]. *)
Definition numbered_line_facts (L c : string) : Prop :=
  claim_of_line L = Ok (Some c) /\
  occurs nl L = false /\
  Str.rstrip_with Str.isspace L = L /\
  exists c0 r, L = String c0 r /\ Str.isspace c0 = false.

(** What the ranking prompt shows of a hit. *)
Definition shown (h : hit) : string * string * string :=
  (title h, url h, Str.take 400 (content h)).

(** The ranking stage's call could not be decoded: the call or the decoder
    raised an exception of the decode-error class. *)
Definition undecodable (json_loads : string -> result pyval) (r : result string) : Prop :=
  exists e,
    result_bind r (fun text => result_bind (clean_response text) json_loads) = Raise e /\
    is_json_decode_error e = true.

(** *** run_verify.py *)

Module Driver.

(** Why the script stops before calling the pipeline ([exit(1)]). *)
Inductive stop : Type :=
| NoApiKeys
| NoText
| NoLabel.

(** The checks made before the pipeline is called: the two keys of the
    environment, then the ['Text'] and ['Real/Fake'] fields of the loaded
    record. *)
Definition preflight (tavily_api_key gemini_api_key : string) (inp : news_input)
  : option stop :=
  if negb (Str.truthy tavily_api_key) || negb (Str.truthy gemini_api_key) then Some NoApiKeys
  else if match Text inp with
          | None => true
          | Some text => negb (Str.truthy text)
          end then Some NoText
  else if match Real_Fake inp with
          | None => true
          | Some _ => false
          end then Some NoLabel
  else None.

(** [v == 1] *)
Definition equals_one (v : pyval) : bool :=
  match v with
  | PyInt z => (z =? 1)%Z
  | PyBool b => b
  | PyFloat (Finite m e) =>
      if (0 <=? e)%Z then (m * 2 ^ e =? 1)%Z else (m =? 2 ^ (- e))%Z
  | _ => false
  end.

(** ["REAL" if news_input.get('Real/Fake') == 1 else "FAKE"], the label
    the script prints. *)
Definition displayed_label (inp : news_input) : string :=
  if equals_one (get_or (Real_Fake inp) PyNone) then "REAL" else "FAKE".

(** [json_file.replace('.json', '_result.json')], the file the result is
    written to. *)
Definition output_file (json_file : string) : string :=
  Str.replace ".json" "_result.json" json_file.

(** Truthiness of a value ([if top_sources:]). *)
Definition py_truthy (v : pyval) : bool :=
  match v with
  | PyNone => false
  | PyBool b => b
  | PyInt z => negb (z =? 0)%Z
  | PyFloat (Finite m _) => negb (m =? 0)%Z
  | PyFloat _ => true
  | PyStr s => Str.truthy s
  | PyList xs => match xs with [] => false | _ :: _ => true end
  | PyDict kvs => match kvs with [] => false | _ :: _ => true end
  end.

(** How the display of the result ends: the lines were printed, or an
    exception was raised (the script then prints it and exits with 1). *)
Inductive display : Type :=
| Printed
| Failed.

(** One turn of [for source in top_sources]: the source must have a [get]
    method, and its relevance (['unknown'] when absent) an [upper] method. *)
Definition display_source (source : pyval) : display :=
  match source with
  | PyDict kvs =>
      match get_or (assoc_get "relevance" kvs) (PyStr "unknown") with
      | PyStr _ => Printed
      | _ => Failed
      end
  | _ => Failed
  end.

Fixpoint display_sources (sources : list pyval) : display :=
  match sources with
  | [] => Printed
  | source :: rest =>
      match display_source source with
      | Printed => display_sources rest
      | Failed => Failed
      end
  end.

(** The display of the result, from [result.get('label', 'Unknown')] to
    the end of the loop over the sources.  The result must have a [get]
    method; a truthy [top_5_sources] must have a length and items that are
    sources (the items of a string or of a dict are strings). *)
Definition display_result (r : pyval) : display :=
  match r with
  | PyDict kvs =>
      let top_sources := get_or (assoc_get "top_5_sources" kvs) (PyList []) in
      if py_truthy top_sources then
        match top_sources with
        | PyList sources => display_sources sources
        | _ => Failed
        end
      else Printed
  | _ => Failed
  end.

End Driver.

(** ** Stage lemmas: what each stage returns and which calls it makes *)

Section StageFacts.

Variable json_loads : string -> result pyval.
Variable W : collaborators.

Lemma configure_apis_run (tk gk : string) (t : trace) :
  configure_apis W tk gk t =
    (match make_clients W tk gk with
     | None => Ok tt
     | Some e => Raise (Exn PlainException ("API configuration failed: " ++ exn_str e))
     end, (t ++ [CallConfigure tk gk])%list).
Proof.
  unfold configure_apis, try_except, call_configure, raise.
  destruct (make_clients W tk gk); reflexivity.
Qed.

Lemma extract_claims_run (news_text image_text : string) (is_real : bool) (t : trace) :
  extract_claims_for_verification W news_text image_text is_real t =
    (Ok (claims_of_outcome (generate_content W t (claims_prompt news_text image_text is_real))),
     (t ++ [CallGenerate (claims_prompt news_text image_text is_real)])%list).
Proof.
  unfold extract_claims_for_verification, try_except, bind, call_generate, lift, ret,
    claims_of_outcome.
  destruct (generate_content W t _) as [text | e]; cbn [result_bind]; [ | reflexivity ].
  destruct (parse_claims text); reflexivity.
Qed.

Lemma search_evidence_run (claims : list string) (is_real : bool) (t : trace) :
  search_supporting_evidence W claims is_real t =
    (Ok (hits_of_outcome (tavily_search W t (evidence_request claims is_real))),
     (t ++ [CallSearch (evidence_request claims is_real)])%list).
Proof.
  unfold search_supporting_evidence, try_except, bind, call_search, ret, hits_of_outcome.
  destruct (tavily_search W t _) as [[results | ] | e]; reflexivity.
Qed.

Lemma select_top_5_run (news_text image_text : string) (is_real : bool)
    (claims : list string) (search_results : list hit) (t : trace) :
  select_top_5_with_explanations json_loads W news_text image_text is_real claims
      search_results t =
    (ranking_of_outcome json_loads is_real search_results
       (generate_content W t
          (ranking_prompt news_text image_text is_real claims search_results)),
     (t ++ [CallGenerate
              (ranking_prompt news_text image_text is_real claims search_results)])%list).
Proof.
  unfold select_top_5_with_explanations, try_except, bind, call_generate, lift, ret,
    ranking_of_outcome.
  destruct (generate_content W t _) as [text | e]; cbn [result_bind].
  - destruct (clean_response text) as [cleaned | e]; cbn [result_bind].
    + destruct (json_loads cleaned) as [v | e]; [ reflexivity | ].
      destruct (is_json_decode_error e); reflexivity.
    + destruct (is_json_decode_error e); reflexivity.
  - destruct (is_json_decode_error e); reflexivity.
Qed.

Lemma claims_of_outcome_length (r : result string) :
  (length (claims_of_outcome r) <= 5)%nat.
Proof.
  unfold claims_of_outcome.
  destruct r as [text | e]; cbn [result_bind]; [ | simpl; lia ].
  unfold parse_claims.
  destruct (claims_loop _ _) as [claims | e]; [ | simpl; lia ].
  rewrite length_firstn. lia.
Qed.

End StageFacts.

(** ** The orchestrator, path by path *)

Section Orchestrator.

Variable json_loads : string -> result pyval.
Variable W : collaborators.
Variables tk gk : string.

(** Validation failures: nothing is called. *)
Lemma run_without_text (inp : news_input) :
  Str.truthy (get_or (Text inp) "") = false ->
  run_pipeline json_loads W inp tk gk = (Ok (error_result "News text is required"), []).
Proof.
  intros Htext.
  unfold run_pipeline, verify_news_with_ground_truth, try_except, verify_body.
  rewrite Htext. reflexivity.
Qed.

Lemma run_without_label (inp : news_input) :
  Str.truthy (get_or (Text inp) "") = true ->
  is_none (get_or (Real_Fake inp) PyNone) = true ->
  run_pipeline json_loads W inp tk gk =
    (Ok (error_result "Real/Fake label is required (1 for real, 0 for fake)"), []).
Proof.
  intros Htext Hlabel.
  unfold run_pipeline, verify_news_with_ground_truth, try_except, verify_body.
  rewrite Htext, Hlabel. reflexivity.
Qed.

Lemma run_bad_label (inp : news_input) (e : exn) :
  Str.truthy (get_or (Text inp) "") = true ->
  is_none (get_or (Real_Fake inp) PyNone) = false ->
  py_int (get_or (Real_Fake inp) PyNone) = Raise e ->
  run_pipeline json_loads W inp tk gk = (Ok (error_result (exn_str e)), []).
Proof.
  intros Htext Hlabel Hint.
  unfold run_pipeline, verify_news_with_ground_truth, try_except, verify_body.
  rewrite Htext, Hlabel. cbn [negb].
  unfold bind, lift. rewrite Hint. reflexivity.
Qed.

Lemma run_stages (inp : news_input) (z : Z) :
  Str.truthy (get_or (Text inp) "") = true ->
  is_none (get_or (Real_Fake inp) PyNone) = false ->
  py_int (get_or (Real_Fake inp) PyNone) = Ok z ->
  run_pipeline json_loads W inp tk gk =
    stages_outcome json_loads W tk gk (get_or (Text inp) "") (get_or (Imagetext inp) "") z.
Proof.
  intros Htext Hlabel Hint.
  unfold run_pipeline, verify_news_with_ground_truth, try_except, verify_body,
    stages_outcome.
  rewrite Htext, Hlabel. cbn [negb].
  unfold bind at 1. unfold lift at 1. rewrite Hint.
  unfold bind at 1. rewrite configure_apis_run. cbn [app].
  destruct (make_clients W tk gk) as [e | ]; [ reflexivity | ].
  unfold bind at 1. rewrite extract_claims_run.
  destruct (claims_of_outcome _) as [ | c cs]; [ reflexivity | ].
  unfold bind at 1. rewrite search_evidence_run.
  destruct (hits_of_outcome _) as [ | h hs]; [ reflexivity | ].
  rewrite select_top_5_run.
  destruct (ranking_of_outcome _ _ _ _); reflexivity.
Qed.

End Orchestrator.

(** ** Evidence search *)

Lemma search_evidence_calls (W : collaborators) (claims : list string) (is_real : bool)
    (t : trace) :
  snd (search_supporting_evidence W claims is_real t) =
    (t ++ [CallSearch (evidence_request claims is_real)])%list.
Proof. rewrite search_evidence_run. reflexivity. Qed.

(** C7.  For a non-empty claim list and either label, the search stage makes
    exactly one call to the search service and no other call; its query is
    the claims joined by " OR " followed by " confirmed true verified" for a
    real label and " false fake debunked hoax misinformation" for a fake one,
    restricted to the trusted-domain allowlist, with at most 20 results, the
    "advanced" (deep) search mode and a window of 365 days. *)
Theorem search_evidence_single_biased_query
    (W : collaborators) (claims : list string) (is_real : bool) (t : trace) :
  claims <> [] ->
  snd (search_supporting_evidence W claims is_real t) =
    (t ++ [CallSearch
             {| query :=
                  Str.join " OR " claims
                    ++ (if is_real then " confirmed true verified"
                        else " false fake debunked hoax misinformation");
                include_domains := INDIAN_NEWS_DOMAINS;
                max_results := 20;
                search_depth := "advanced";
                days := 365 |}])%list.
Proof.
  intros _. rewrite search_evidence_calls.
  unfold evidence_request, search_query.
  destruct is_real; reflexivity.
Qed.

Lemma search_evidence_single_biased_query_witness :
  snd (search_supporting_evidence
         (Sample.world (Ok Sample.numbered_claims) (Ok None) (Ok ""))
         ["Trees were planted"; "The mayor spoke"] false []) =
    [CallSearch
       {| query := "Trees were planted OR The mayor spoke false fake debunked hoax misinformation";
          include_domains := INDIAN_NEWS_DOMAINS;
          max_results := 20;
          search_depth := "advanced";
          days := 365 |}].
Proof.
  apply (@search_evidence_single_biased_query
           (Sample.world (Ok Sample.numbered_claims) (Ok None) (Ok ""))
           ["Trees were planted"; "The mayor spoke"] false []).
  discriminate.
Defined.

(** ** Input validation *)

(** C9.  A record whose Text is missing or empty, or whose Real/Fake is
    missing, is rejected with no call at all -- the handles are not built and
    neither the text-generation nor the search service is invoked -- and the
    result is the ERROR-shaped one of the top-level handler, carrying the
    validation message. *)
Theorem invalid_input_rejected_before_any_call
    (json_loads : string -> result pyval) (W : collaborators)
    (inp : news_input) (tk gk : string) :
  Text inp = None \/ Text inp = Some "" \/ Real_Fake inp = None ->
  exists message,
    run_pipeline json_loads W inp tk gk = (Ok (error_result message), []) /\
    (message = "News text is required" \/
     message = "Real/Fake label is required (1 for real, 0 for fake)").
Proof.
  intros Hinvalid.
  destruct (Str.truthy (get_or (Text inp) "")) eqn:Htext.
  - exists "Real/Fake label is required (1 for real, 0 for fake)".
    split; [ | right; reflexivity ].
    apply run_without_label; [ exact Htext | ].
    destruct Hinvalid as [H | [H | H]]; rewrite H in *; try discriminate Htext.
    reflexivity.
  - exists "News text is required".
    split; [ | left; reflexivity ].
    apply run_without_text. exact Htext.
Qed.

Lemma invalid_input_rejected_before_any_call_witness :
  exists message,
    run_pipeline Json.loads
      (Sample.world (Ok Sample.numbered_claims) (Ok (Some [Sample.hindu_hit])) (Ok "{}"))
      {| Text := Some "City launches tree-planting drive"; Imagetext := None;
         Link_text := None; Real_Fake := None |}
      "tavily-key" "gemini-key" = (Ok (error_result message), []) /\
    (message = "News text is required" \/
     message = "Real/Fake label is required (1 for real, 0 for fake)").
Proof.
  apply invalid_input_rejected_before_any_call.
  right; right; reflexivity.
Defined.

(** ** Conversion of the Real/Fake field *)

Lemma py_int_error_message (v : pyval) (e : exn) :
  py_int v = Raise e ->
  exn_str e <> "Real/Fake label is required (1 for real, 0 for fake)" /\
  exn_str e <> "News text is required".
Proof.
  destruct v as [ | b | z | [m ex | negative | ] | s | xs | kvs]; cbn [py_int];
    try discriminate;
    try (intros H; injection H as <-; cbn [exn_str]; split; discriminate).
  destruct (int_of_str s); [ discriminate | | ];
    intros H; injection H as <-; cbn [exn_str]; split; discriminate.
Qed.
(** ** Early exits *)

Lemma valid_label_converts (b : Z) :
  b = 0 \/ b = 1 ->
  py_int (PyInt b) = Ok b /\ label_of (negb (b =? 0)%Z) = target_label b.
Proof. intros [-> | ->]; split; reflexivity. Qed.

(** C4 as stated fails: with no claim extracted, the explanation returned is
    not the string "could not extract claims for verification". *)
Lemma empty_claims_explanation_counterexample :
  let W := Sample.world (Ok "Nothing to check here.") (Ok None) (Ok "") in
  make_clients W "tavily-key" "gemini-key" = None /\
  fst (extract_claims_for_verification W "City launches tree-planting drive" "" false
         [CallConfigure "tavily-key" "gemini-key"]) = Ok [] /\
  fst (run_pipeline Json.loads W (Sample.request (PyInt 0)) "tavily-key" "gemini-key")
    <> Ok (result_dict (target_label 0) "could not extract claims for verification" []).
Proof.
  cbv zeta. split; [ reflexivity | split; [ vm_compute; reflexivity | ] ].
  vm_compute. discriminate.
Qed.

(** C4 (amended).  For a valid request whose handles are built and whose
    claim extraction returns no claim, the run makes the configuration call
    and the one text-generation call of the extraction and nothing else --
    the search service is never called -- and returns the label of the
    request, the explanation "Could not extract claims for verification"
    and no source. *)
Theorem empty_claims_short_circuit
    (json_loads : string -> result pyval) (W : collaborators)
    (text : string) (image link : option string) (b : Z) (tk gk : string) :
  text <> "" -> b = 0 \/ b = 1 ->
  make_clients W tk gk = None ->
  fst (extract_claims_for_verification W text (get_or image "") (negb (b =? 0)%Z)
         [CallConfigure tk gk]) = Ok [] ->
  exists t,
    run_pipeline json_loads W
      {| Text := Some text; Imagetext := image; Link_text := link;
         Real_Fake := Some (PyInt b) |} tk gk =
      (Ok (result_dict (target_label b) "Could not extract claims for verification" []), t) /\
    t = [CallConfigure tk gk;
         CallGenerate (claims_prompt text (get_or image "") (negb (b =? 0)%Z))] /\
    existsb is_search_call t = false.
Proof.
  intros Htext Hb Hcfg Hclaims.
  destruct (valid_label_converts Hb) as [Hint Hlabel].
  eexists. split; [ | split; [ reflexivity | reflexivity ] ].
  rewrite (@run_stages json_loads W tk gk _ b);
    [ | destruct text; [ congruence | reflexivity ] | reflexivity | exact Hint ].
  cbn [Text Imagetext get_or].
  rewrite extract_claims_run in Hclaims. cbn [fst] in Hclaims.
  injection Hclaims as Hclaims.
  unfold stages_outcome. rewrite Hcfg, Hclaims.
  unfold empty_claims_result. rewrite Hlabel. reflexivity.
Qed.

Lemma empty_claims_short_circuit_witness :
  exists t,
    run_pipeline Json.loads
      (Sample.world (Ok "Nothing to check here.") (Ok None) (Ok ""))
      (Sample.request (PyInt 0)) "tavily-key" "gemini-key" =
      (Ok (result_dict "FAKE" "Could not extract claims for verification" []), t) /\
    t = [CallConfigure "tavily-key" "gemini-key";
         CallGenerate (claims_prompt "City launches tree-planting drive" "" false)] /\
    existsb is_search_call t = false.
Proof.
  apply (@empty_claims_short_circuit Json.loads
           (Sample.world (Ok "Nothing to check here.") (Ok None) (Ok ""))
           "City launches tree-planting drive" None None 0 "tavily-key" "gemini-key").
  - discriminate.
  - left; reflexivity.
  - reflexivity.
  - vm_compute. reflexivity.
Defined.

(** C5 as stated fails: with no hit found for a real label, the explanation
    returned is not the string "no supporting sources found to verify this
    news". *)
Lemma no_evidence_explanation_counterexample :
  let W := Sample.world (Ok Sample.numbered_claims) (Ok (Some [])) (Ok "") in
  let t1 := [CallConfigure "tavily-key" "gemini-key";
             CallGenerate (claims_prompt "City launches tree-planting drive" "" true)] in
  make_clients W "tavily-key" "gemini-key" = None /\
  fst (search_supporting_evidence W
         ["The city launched a tree-planting drive"; "10,000 trees will be planted"]
         true t1) = Ok [] /\
  fst (run_pipeline Json.loads W (Sample.request (PyInt 1)) "tavily-key" "gemini-key")
    <> Ok (result_dict (target_label 1)
             "no supporting sources found to verify this news" []).
Proof.
  cbv zeta. split; [ reflexivity | split; [ vm_compute; reflexivity | ] ].
  vm_compute. discriminate.
Qed.

(** C5 (amended).  For a valid request whose handles are built, whose claim
    extraction returns the non-empty list [claims] and whose evidence search
    returns no hit, the run makes the configuration call, the text-generation
    call of the extraction and the search call and nothing else -- the
    ranking stage and its text-generation call never happen -- and returns
    the label of the request, no source, and the explanation "No supporting
    sources found to verify this news" for a real label, "No supporting
    sources found to debunk this news" for a fake one. *)
Theorem no_evidence_short_circuit
    (json_loads : string -> result pyval) (W : collaborators)
    (text : string) (image link : option string) (b : Z) (tk gk : string)
    (claims : list string) :
  text <> "" -> b = 0 \/ b = 1 ->
  make_clients W tk gk = None ->
  let is_real := negb (b =? 0)%Z in
  let p1 := claims_prompt text (get_or image "") is_real in
  fst (extract_claims_for_verification W text (get_or image "") is_real
         [CallConfigure tk gk]) = Ok claims ->
  claims <> [] ->
  fst (search_supporting_evidence W claims is_real
         [CallConfigure tk gk; CallGenerate p1]) = Ok [] ->
  exists t,
    run_pipeline json_loads W
      {| Text := Some text; Imagetext := image; Link_text := link;
         Real_Fake := Some (PyInt b) |} tk gk =
      (Ok (result_dict (target_label b)
             (if (b =? 1)%Z then "No supporting sources found to verify this news"
              else "No supporting sources found to debunk this news") []), t) /\
    t = [CallConfigure tk gk; CallGenerate p1;
         CallSearch (evidence_request claims is_real)] /\
    length (filter is_generate_call t) = 1%nat.
Proof.
  intros Htext Hb Hcfg is_real p1 Hclaims Hne Hhits.
  subst is_real p1.
  destruct (valid_label_converts Hb) as [Hint Hlabel].
  eexists. split; [ | split; [ reflexivity | reflexivity ] ].
  rewrite (@run_stages json_loads W tk gk _ b);
    [ | destruct text; [ congruence | reflexivity ] | reflexivity | exact Hint ].
  cbn [Text Imagetext get_or].
  rewrite extract_claims_run in Hclaims. cbn [fst] in Hclaims.
  injection Hclaims as Hclaims.
  rewrite search_evidence_run in Hhits. cbn [fst] in Hhits.
  injection Hhits as Hhits.
  unfold stages_outcome. rewrite Hcfg, Hclaims.
  destruct claims as [ | c cs]; [ congruence | ].
  cbn [app] in *. rewrite Hhits.
  unfold no_evidence_result. rewrite Hlabel.
  destruct Hb as [-> | ->]; reflexivity.
Qed.

Lemma no_evidence_short_circuit_witness :
  exists t,
    run_pipeline Json.loads
      (Sample.world (Ok Sample.numbered_claims) (Ok (Some [])) (Ok ""))
      (Sample.request (PyInt 1)) "tavily-key" "gemini-key" =
      (Ok (result_dict "REAL" "No supporting sources found to verify this news" []), t) /\
    t = [CallConfigure "tavily-key" "gemini-key";
         CallGenerate (claims_prompt "City launches tree-planting drive" "" true);
         CallSearch
           (evidence_request
              ["The city launched a tree-planting drive"; "10,000 trees will be planted"]
              true)] /\
    length (filter is_generate_call t) = 1%nat.
Proof.
  apply (@no_evidence_short_circuit Json.loads
           (Sample.world (Ok Sample.numbered_claims) (Ok (Some [])) (Ok ""))
           "City launches tree-planting drive" None None 1 "tavily-key" "gemini-key"
           ["The city launched a tree-planting drive"; "10,000 trees will be planted"]).
  - discriminate.
  - right; reflexivity.
  - reflexivity.
  - vm_compute. reflexivity.
  - discriminate.
  - vm_compute. reflexivity.
Defined.

(** ** The fallback of the ranking stage *)

Lemma split_from_not_nil (sep s : string) (skip : nat) : Str.split_from sep s skip <> [].
Proof.
  revert skip. induction s as [ | c r IH]; intros skip; cbn [Str.split_from].
  - discriminate.
  - destruct skip as [ | k]; [ | apply IH ].
    destruct (String.prefix sep (String c r)); [ discriminate | ].
    unfold Str.cons_head. destruct (Str.split_from sep r 0); discriminate.
Qed.

Lemma source_name_of_host (u : string) :
  has_host u = true -> exists name, source_name_of u = Ok name.
Proof.
  unfold has_host, source_name_of, py_index. intros Hlen.
  apply Nat.leb_le in Hlen.
  destruct (nth_error (Str.split "/" u) 2) as [host | ] eqn:Hhost.
  - cbn [result_bind].
    destruct (Str.split "." (Str.replace "www." "" host)) as [ | name rest] eqn:Hparts.
    + exfalso. exact (split_from_not_nil _ _ _ Hparts).
    + eexists. reflexivity.
  - apply nth_error_None in Hhost. lia.
Qed.

Lemma source_name_of_no_host (u : string) :
  has_host u = false -> source_name_of u = Raise index_error.
Proof.
  unfold has_host, source_name_of, py_index. intros Hlen.
  apply Nat.leb_gt in Hlen.
  destruct (nth_error (Str.split "/" u) 2) as [host | ] eqn:Hhost; [ | reflexivity ].
  assert (nth_error (Str.split "/" u) 2 <> None) as Hsome by congruence.
  apply nth_error_Some in Hsome. lia.
Qed.

Lemma fallback_sources_shape (l : list hit) :
  forall (i : nat) (sources : list pyval),
    map_result fallback_source (enumerate_from i l) = Ok sources ->
    length sources = length l /\
    map rank_of sources = map (fun n => Some (Z.of_nat n)) (seq (i + 1) (length l)) /\
    map (py_get "url") sources = map (fun r => Some (PyStr (url r))) l /\
    Forall is_medium sources.
Proof.
  induction l as [ | r rest IH]; intros i sources Hmap; cbn in Hmap.
  - injection Hmap as <-. repeat split; constructor.
  - destruct (source_name_of (url r)) as [name | e]; cbn in Hmap; [ | discriminate ].
    destruct (map_result fallback_source (enumerate_from (S i) rest)) as [ys | e] eqn:Hrest;
      cbn in Hmap; [ | discriminate ].
    injection Hmap as <-.
    destruct (IH (S i) ys Hrest) as (Hlen & Hranks & Hurls & Hmed).
    cbn [length map seq]. repeat split.
    + now rewrite Hlen.
    + f_equal. replace (S (i + 1)) with (S i + 1)%nat by lia. exact Hranks.
    + f_equal. exact Hurls.
    + constructor; [ reflexivity | exact Hmed ].
Qed.

Lemma fallback_sources_exist (l : list hit) :
  forall i : nat,
    Forall (fun r => has_host (url r) = true) l ->
    exists sources, map_result fallback_source (enumerate_from i l) = Ok sources.
Proof.
  induction l as [ | r rest IH]; intros i Hall; cbn.
  - eexists. reflexivity.
  - inversion Hall as [ | ? ? Hr Hrest]; subst.
    destruct (source_name_of_host _ Hr) as [name ->].
    destruct (IH (S i) Hrest) as [ys ->].
    cbn. eexists. reflexivity.
Qed.

Lemma all_some_map_Some {A : Type} (l : list A) : all_some (map Some l) = Some l.
Proof.
  induction l as [ | a rest IH]; cbn; [ reflexivity | ]. now rewrite IH.
Qed.

(** What the fallback returns when it returns: the label of the request,
    the first [min 5 n] hits in their order, ranked 1.. and all "medium". *)
Lemma fallback_result_shape (is_real : bool) (hits : list hit) (r : pyval) :
  fallback_result is_real hits = Ok r ->
  exists sources,
    r = result_dict (label_of is_real)
          ("Analysis indicates this news appears to be "
             ++ (if is_real then "real" else "fake") ++ " based on available sources.")
          sources /\
    length sources = Nat.min 5 (length hits) /\
    all_some (map rank_of sources) = Some (map Z.of_nat (seq 1 (length sources))) /\
    map (py_get "url") sources = map (fun h => Some (PyStr (url h))) (firstn 5 hits) /\
    Forall is_medium sources.
Proof.
  unfold fallback_result, enumerate. intros Hfb.
  destruct (map_result fallback_source (enumerate_from 0 (firstn 5 hits))) as [sources | e]
    eqn:Hmap; cbn in Hfb; [ | discriminate ].
  injection Hfb as <-.
  destruct (fallback_sources_shape _ _ Hmap) as (Hlen & Hranks & Hurls & Hmed).
  exists sources. rewrite length_firstn in Hlen.
  repeat split; try assumption.
  rewrite Hranks, Hlen, length_firstn. cbn [Nat.add].
  rewrite <- (map_map Z.of_nat Some). apply all_some_map_Some.
Qed.

Lemma fallback_result_succeeds (is_real : bool) (hits : list hit) :
  Forall (fun h => has_host (url h) = true) (firstn 5 hits) ->
  exists r, fallback_result is_real hits = Ok r.
Proof.
  intros Hall. unfold fallback_result, enumerate.
  destruct (fallback_sources_exist 0 Hall) as [sources ->].
  cbn. eexists. reflexivity.
Qed.

(** X3.  The fallback as the ranking stage reaches it: when the response
    is not decodable and every one of the first five hits has a host part,
    the stage returns the label of the request, a fixed explanation and the
    first [min 5 n] hits in their order, ranked 1.. and all "medium". *)
Lemma ranking_fallback_on_undecodable_response
    (json_loads : string -> result pyval) (W : collaborators)
    (news_text image_text : string) (is_real : bool) (claims : list string)
    (hits : list hit) (t : trace) (text cleaned : string) (e : exn) :
  generate_content W t (ranking_prompt news_text image_text is_real claims hits) = Ok text ->
  clean_response text = Ok cleaned ->
  json_loads cleaned = Raise e -> is_json_decode_error e = true ->
  Forall (fun h => has_host (url h) = true) (firstn 5 hits) ->
  exists sources,
    fst (select_top_5_with_explanations json_loads W news_text image_text is_real
           claims hits t) =
      Ok (result_dict (label_of is_real)
            ("Analysis indicates this news appears to be "
               ++ (if is_real then "real" else "fake") ++ " based on available sources.")
            sources) /\
    length sources = Nat.min 5 (length hits) /\
    all_some (map rank_of sources) = Some (map Z.of_nat (seq 1 (length sources))) /\
    map (py_get "url") sources = map (fun h => Some (PyStr (url h))) (firstn 5 hits) /\
    Forall is_medium sources.
Proof.
  intros Hgen Hclean Hloads Hcls Hall.
  rewrite select_top_5_run. cbn [fst].
  unfold ranking_of_outcome. rewrite Hgen. cbn [result_bind].
  rewrite Hclean. cbn [result_bind]. rewrite Hloads, Hcls.
  destruct (@fallback_result_succeeds is_real _ Hall) as [r Hok].
  destruct (fallback_result_shape _ _ Hok) as (sources & -> & Hshape).
  exists sources. split; [ exact Hok | exact Hshape ].
Qed.

(** Publisher names the fallback derives. *)
Example source_names :
  source_name_of "https://www.thehindu.com/news/tree-drive" = Ok "Thehindu" /\
  source_name_of "https://timesofindia.indiatimes.com/city" = Ok "Timesofindia" /\
  source_name_of "https://www.the-hindu.com/news" = Ok "The-Hindu" /\
  source_name_of "thehindu.com/news" = Raise index_error.
Proof. repeat split; vm_compute; reflexivity. Qed.

(** The three ways the ranking stage ends. *)
Lemma ranking_of_outcome_cases (json_loads : string -> result pyval)
    (is_real : bool) (hits : list hit) (r : result string) :
  (exists text cleaned v,
     r = Ok text /\ clean_response text = Ok cleaned /\ json_loads cleaned = Ok v /\
     ranking_of_outcome json_loads is_real hits r = Ok v) \/
  (exists e, ranking_of_outcome json_loads is_real hits r = Ok (analysis_error_result is_real e)) \/
  ranking_of_outcome json_loads is_real hits r = fallback_result is_real hits.
Proof.
  unfold ranking_of_outcome.
  destruct r as [text | e]; cbn [result_bind].
  - destruct (clean_response text) as [cleaned | e] eqn:Hclean; cbn [result_bind].
    + destruct (json_loads cleaned) as [v | e] eqn:Hloads.
      * left. exists text, cleaned, v. repeat split; assumption.
      * destruct (is_json_decode_error e); [ right; right; reflexivity | ].
        right; left. eexists. reflexivity.
    + destruct (is_json_decode_error e); [ right; right; reflexivity | ].
      right; left. eexists. reflexivity.
  - destruct (is_json_decode_error e); [ right; right; reflexivity | ].
    right; left. eexists. reflexivity.
Qed.

(** ** Every way a run can end *)

Section Outcomes.

Variable json_loads : string -> result pyval.
Variable W : collaborators.
Variables tk gk : string.

Lemma stages_outcome_cases (news_text image_text : string) (z : Z) :
  let is_real := negb (z =? 0)%Z in
  exists r t,
    stages_outcome json_loads W tk gk news_text image_text z = (Ok r, t) /\
    ((exists e, make_clients W tk gk = Some e /\
                r = error_result ("API configuration failed: " ++ exn_str e)) \/
     (make_clients W tk gk = None /\
      (r = empty_claims_result is_real \/
       r = no_evidence_result is_real \/
       decoded_by_ranker json_loads W t r \/
       (exists e, r = analysis_error_result is_real e) \/
       (exists t1 q hits,
          hits = hits_of_outcome (tavily_search W t1 q) /\
          (fallback_result is_real hits = Ok r \/
           exists e, fallback_result is_real hits = Raise e /\
                     r = error_result (exn_str e)))))).
Proof.
  intros is_real. unfold stages_outcome. fold is_real.
  destruct (make_clients W tk gk) as [e | ] eqn:Hcfg.
  { eexists; eexists; split; [ reflexivity | ]. left. exists e. split; reflexivity. }
  destruct (claims_of_outcome _) as [ | c cs] eqn:Hclaims.
  { eexists; eexists; split; [ reflexivity | ]. right; split; [ reflexivity | ].
    left; reflexivity. }
  destruct (hits_of_outcome _) as [ | h hs] eqn:Hhits.
  { eexists; eexists; split; [ reflexivity | ]. right; split; [ reflexivity | ].
    right; left; reflexivity. }
  cbn [app].
  match goal with
  | |- context [ranking_of_outcome _ _ _ (generate_content W ?t2 ?p2)] =>
      destruct (ranking_of_outcome_cases json_loads is_real (h :: hs)
                  (generate_content W t2 p2))
        as [(text & cleaned & v & Hgen & Hclean & Hloads & ->) | [(e & ->) | ->]]
  end.
  - eexists; eexists; split; [ reflexivity | ]. right; split; [ reflexivity | ].
    right; right; left.
    unfold decoded_by_ranker.
    do 5 eexists. exists text, cleaned.
    split; [ reflexivity | ]. split; [ exact Hgen | ]. split; assumption.
  - eexists; eexists; split; [ reflexivity | ]. right; split; [ reflexivity | ].
    right; right; right; left. exists e. reflexivity.
  - destruct (fallback_result is_real (h :: hs)) as [r | e] eqn:Hfb.
    + eexists; eexists; split; [ reflexivity | ]. right; split; [ reflexivity | ].
      right; right; right; right.
      eexists; eexists; exists (h :: hs). split; [ symmetry; exact Hhits | ].
      left. exact Hfb.
    + eexists; eexists; split; [ reflexivity | ]. right; split; [ reflexivity | ].
      right; right; right; right.
      eexists; eexists; exists (h :: hs). split; [ symmetry; exact Hhits | ].
      right. exists e. split; [ exact Hfb | reflexivity ].
Qed.

(** The results a run can return. *)
Lemma run_pipeline_cases (inp : news_input) :
  exists r t,
    run_pipeline json_loads W inp tk gk = (Ok r, t) /\
    ((exists message, r = error_result message) \/
     (exists is_real, r = empty_claims_result is_real) \/
     (exists is_real, r = no_evidence_result is_real) \/
     (exists is_real e, r = analysis_error_result is_real e) \/
     (exists is_real hits, fallback_result is_real hits = Ok r) \/
     decoded_by_ranker json_loads W t r).
Proof.
  destruct (Str.truthy (get_or (Text inp) "")) eqn:Htext.
  2:{ rewrite run_without_text by assumption.
      eexists; eexists; split; [ reflexivity | ]. left. eexists. reflexivity. }
  destruct (is_none (get_or (Real_Fake inp) PyNone)) eqn:Hnone.
  { rewrite run_without_label by assumption.
    eexists; eexists; split; [ reflexivity | ]. left. eexists. reflexivity. }
  destruct (py_int (get_or (Real_Fake inp) PyNone)) as [z | e] eqn:Hint.
  2:{ rewrite (run_bad_label json_loads W tk gk inp Htext Hnone Hint).
      eexists; eexists; split; [ reflexivity | ]. left. eexists. reflexivity. }
  rewrite (run_stages json_loads W tk gk inp Htext Hnone Hint).
  destruct (stages_outcome_cases (get_or (Text inp) "") (get_or (Imagetext inp) "") z)
    as (r & t & -> & Hcases).
  exists r, t. split; [ reflexivity | ].
  destruct Hcases as [(e & _ & ->) | (_ & [-> | [-> | [Hdec | [(e & ->) | Hfb]]]])].
  - left. eexists. reflexivity.
  - right; left. eexists. reflexivity.
  - right; right; left. eexists. reflexivity.
  - do 5 right. exact Hdec.
  - right; right; right; left. eexists; eexists. reflexivity.
  - destruct Hfb as (t1 & q & hits & _ & [Hok | (e & _ & ->)]).
    + do 4 right; left. eexists; eexists. exact Hok.
    + left. eexists. reflexivity.
Qed.

End Outcomes.

(** ** Ranks of the returned sources *)

Lemma seq_of_nat_sorted (len start : nat) :
  StronglySorted Z.lt (map Z.of_nat (seq start len)).
Proof.
  revert start. induction len as [ | len IH]; intros start; cbn [seq map].
  - constructor.
  - constructor; [ apply IH | ].
    apply Forall_forall. intros z Hz.
    apply in_map_iff in Hz. destruct Hz as (n & <- & Hn).
    apply in_seq in Hn. lia.
Qed.

Lemma seq_of_nat_NoDup (len start : nat) : NoDup (map Z.of_nat (seq start len)).
Proof.
  revert start. induction len as [ | len IH]; intros start; cbn [seq map].
  - constructor.
  - constructor; [ | apply IH ].
    intros Hin. apply in_map_iff in Hin. destruct Hin as (n & Heq & Hn).
    apply in_seq in Hn. lia.
Qed.

Lemma no_source_ranks (label explanation : string) :
  ranks_dense_ascending (result_dict label explanation []).
Proof.
  exists [], []. cbn. repeat split; try constructor. lia.
Qed.

Lemma error_result_ranks (message : string) : ranks_dense_ascending (error_result message).
Proof.
  exists [], []. cbn. repeat split; try constructor. lia.
Qed.

Lemma fallback_result_ranks (is_real : bool) (hits : list hit) (r : pyval) :
  fallback_result is_real hits = Ok r -> ranks_dense_ascending r.
Proof.
  intros Hfb.
  destruct (fallback_result_shape _ _ Hfb) as (sources & -> & Hlen & Hranks & _ & _).
  exists sources, (map Z.of_nat (seq 1 (length sources))).
  split; [ reflexivity | ].
  split; [ rewrite Hlen; apply Nat.le_min_l | ].
  split; [ exact Hranks | ].
  split; [ reflexivity | ].
  split; [ apply seq_of_nat_NoDup | apply seq_of_nat_sorted ].
Qed.

(** C2 as stated fails: a ranking response that decodes as JSON is returned
    as it is, here with six sources that all carry rank 2. *)
Lemma decoded_ranks_counterexample :
  exists r t sources,
    run_pipeline Json.loads
      (Sample.world (Ok Sample.numbered_claims) (Ok (Some [Sample.hindu_hit]))
         (Ok Sample.six_sources_json))
      (Sample.request (PyInt 1)) "tavily-key" "gemini-key" = (Ok r, t) /\
    top_sources r = Some sources /\ length sources = 6%nat /\
    ranks r = Some [2; 2; 2; 2; 2; 2] /\
    ~ ranks_dense_ascending r.
Proof.
  eexists; eexists; eexists.
  split; [ vm_compute; reflexivity | ].
  split; [ reflexivity | ]. split; [ reflexivity | ]. split; [ reflexivity | ].
  intros (sources & rs & Hsources & Hlen & _).
  cbn in Hsources. injection Hsources as <-. cbn in Hlen. lia.
Qed.

(** C2 (amended).  Every run returns a result; unless that result is the
    decoded JSON of the ranking response, returned as it is, its source list
    has at most five entries and their ranks are exactly 1..k for k sources:
    unique, dense from 1 and strictly ascending. *)
Theorem ranks_dense_unless_decoded
    (json_loads : string -> result pyval) (W : collaborators)
    (inp : news_input) (tk gk : string) :
  exists r t,
    run_pipeline json_loads W inp tk gk = (Ok r, t) /\
    (ranks_dense_ascending r \/ decoded_by_ranker json_loads W t r).
Proof.
  destruct (run_pipeline_cases json_loads W tk gk inp) as (r & t & Hrun & Hcases).
  exists r, t. split; [ exact Hrun | ].
  destruct Hcases as
    [(m & ->) | [(b & ->) | [(b & ->) | [(b & e & ->) | [(b & hits & Hfb) | Hdec]]]]].
  - left. apply error_result_ranks.
  - left. apply no_source_ranks.
  - left. apply no_source_ranks.
  - left. apply no_source_ranks.
  - left. exact (fallback_result_ranks _ _ Hfb).
  - right. exact Hdec.
Qed.

(** ** Containment of exceptions *)

Lemma result_dict_well_formed (is_real : bool) (explanation : string)
    (sources : list pyval) :
  well_formed_result (result_dict (label_of is_real) explanation sources).
Proof.
  exists (label_of is_real), explanation, sources.
  repeat split.
  destruct is_real; cbn; auto.
Qed.

Lemma error_result_well_formed (message : string) :
  well_formed_result (error_result message).
Proof.
  exists "ERROR", ("Error during verification: " ++ message), [].
  repeat split. cbn; auto.
Qed.

(** C8 as stated fails in its last part: when the ranking response is the
    JSON text [null], the caller receives [None], which is no result
    object. *)
Lemma decoded_null_counterexample :
  exists t,
    run_pipeline Json.loads
      (Sample.world (Ok Sample.numbered_claims) (Ok (Some [Sample.hindu_hit])) (Ok "null"))
      (Sample.request (PyInt 1)) "tavily-key" "gemini-key" = (Ok PyNone, t) /\
    ~ well_formed_result PyNone.
Proof.
  eexists. split; [ vm_compute; reflexivity | ].
  intros (label & explanation & sources & Hlabel & _). discriminate Hlabel.
Qed.

(** C8 (amended).  For every record and every behaviour of the
    collaborators the orchestrator returns a value and never raises.  When
    its [try] block raises [e], that value has label ERROR, the explanation
    "Error during verification: " followed by the text of [e], no source, and
    an [error] field with the text of [e]; otherwise it is the value of the
    block.  The value is a well-formed result object unless it is the decoded
    JSON of the ranking response, which is returned as it is. *)
Theorem exceptions_are_contained
    (json_loads : string -> result pyval) (W : collaborators)
    (inp : news_input) (tk gk : string) :
  exists r t,
    run_pipeline json_loads W inp tk gk = (Ok r, t) /\
    match verify_body json_loads W inp tk gk [] with
    | (Raise e, t') =>
        t = t' /\
        r = PyDict [ ("label", PyStr "ERROR");
                     ("overall_explanation",
                      PyStr ("Error during verification: " ++ exn_str e));
                     ("top_5_sources", PyList []);
                     ("error", PyStr (exn_str e)) ]
    | (Ok v, t') => t = t' /\ r = v
    end /\
    (well_formed_result r \/ decoded_by_ranker json_loads W t r).
Proof.
  destruct (run_pipeline_cases json_loads W tk gk inp) as (r & t & Hrun & Hcases).
  exists r, t. split; [ exact Hrun | ]. split.
  - unfold run_pipeline, verify_news_with_ground_truth, try_except, ret in Hrun.
    destruct (verify_body json_loads W inp tk gk []) as [[v | e] t'];
      injection Hrun as <- <-; split; reflexivity.
  - destruct Hcases as
      [(m & ->) | [(b & ->) | [(b & ->) | [(b & e & ->) | [(b & hits & Hfb) | Hdec]]]]].
    + left. apply error_result_well_formed.
    + left. apply result_dict_well_formed.
    + left. apply result_dict_well_formed.
    + left. apply result_dict_well_formed.
    + left. destruct (fallback_result_shape _ _ Hfb) as (sources & -> & _).
      apply result_dict_well_formed.
    + right. exact Hdec.
Qed.

(** ** The label of the result *)

Lemma hits_of_outcome_hosts (W : collaborators) (t : trace) (q : search_request) :
  hits_have_hosts W ->
  Forall (fun h => has_host (url h) = true)
    (firstn 5 (hits_of_outcome (tavily_search W t q))).
Proof.
  intros Hhosts. unfold hits_of_outcome.
  destruct (tavily_search W t q) as [[results | ] | e] eqn:Hsearch;
    try (rewrite firstn_nil; constructor).
  rewrite firstn_map. apply Forall_map.
  exact (Hhosts t q results Hsearch).
Qed.





(** ** The two defects *)

(** C3: the fallback of the ranking stage fails on a hit whose URL has no
    third '/'-separated part, such as the empty URL the search stage itself
    puts in for a hit without one.  The ranking response is not JSON, the
    [IndexError] raised inside the handler leaves
    [select_top_5_with_explanations], and the run ends in the ERROR result. *)
Theorem fallback_raises_on_url_without_host :
  let W := Sample.world (Ok Sample.numbered_claims)
             (Ok (Some [Sample.hit_without_url])) (Ok "I am unable to answer in JSON.") in
  let hits := [normalise_hit Sample.hit_without_url] in
  url (normalise_hit Sample.hit_without_url) = "" /\
  Json.loads "I am unable to answer in JSON." = Raise Json.decode_error /\
  fst (select_top_5_with_explanations Json.loads W
         "City launches tree-planting drive" "" true
         ["The city launched a tree-planting drive"] hits []) =
    Raise (Exn IndexError "list index out of range") /\
  fst (run_pipeline Json.loads W (Sample.request (PyInt 1)) "tavily-key" "gemini-key") =
    Ok (error_result "list index out of range").
Proof.
  cbv zeta. repeat split; vm_compute; reflexivity.
Qed.

(** C6: a dash line is cut at its first full stop, so the text before it is
    lost: the line "- The U.S. economy grew" gives the claim
    "S. economy grew", and the numbered line "2. 12.5 percent growth" keeps
    only its own text because the first full stop is the marker's. *)
Theorem dash_line_loses_text_before_full_stop :
  let response := "- The U.S. economy grew" ++ nl ++ "2. 12.5 percent growth" in
  parse_claims response = Ok ["S. economy grew"; "12.5 percent growth"] /\
  fst (extract_claims_for_verification
         (Sample.world (Ok response) (Ok None) (Ok ""))
         "City launches tree-planting drive" "" true
         [CallConfigure "tavily-key" "gemini-key"]) =
    Ok ["S. economy grew"; "12.5 percent growth"].
Proof.
  cbv zeta. split; vm_compute; reflexivity.
Qed.

(** * Further properties of the pipeline *)

(** ** Calls made by a run *)

(** X1.  Whatever the record and the collaborators, the calls of a run are
    an initial part of: build the handles with the two keys given, one
    text-generation call, one search call, one text-generation call.  So no
    call is repeated, the search service is called at most once and the
    text-generation service at most twice. *)
Theorem run_calls_form_a_prefix
    (json_loads : string -> result pyval) (W : collaborators)
    (inp : news_input) (tk gk : string) :
  exists p1 q p2 n,
    snd (run_pipeline json_loads W inp tk gk) =
      firstn n [CallConfigure tk gk; CallGenerate p1; CallSearch q; CallGenerate p2].
Proof.
  destruct (Str.truthy (get_or (Text inp) "")) eqn:Htext.
  2:{ rewrite run_without_text by assumption.
      exists "", (evidence_request [] true), "", 0%nat. reflexivity. }
  destruct (is_none (get_or (Real_Fake inp) PyNone)) eqn:Hnone.
  { rewrite run_without_label by assumption.
    exists "", (evidence_request [] true), "", 0%nat. reflexivity. }
  destruct (py_int (get_or (Real_Fake inp) PyNone)) as [z | e] eqn:Hint.
  2:{ rewrite (run_bad_label json_loads W tk gk inp Htext Hnone Hint).
      exists "", (evidence_request [] true), "", 0%nat. reflexivity. }
  rewrite (run_stages json_loads W tk gk inp Htext Hnone Hint).
  unfold stages_outcome.
  set (is_real := negb (z =? 0)%Z).
  set (p1 := claims_prompt (get_or (Text inp) "") (get_or (Imagetext inp) "") is_real).
  set (claims := claims_of_outcome (generate_content W [CallConfigure tk gk] p1)).
  set (q := evidence_request claims is_real).
  set (hits := hits_of_outcome
                 (tavily_search W ([CallConfigure tk gk] ++ [CallGenerate p1])%list q)).
  exists p1, q,
    (ranking_prompt (get_or (Text inp) "") (get_or (Imagetext inp) "") is_real claims hits).
  destruct (make_clients W tk gk); [ exists 1%nat; reflexivity | ].
  destruct claims as [ | c cs] eqn:Hclaims; [ exists 2%nat; reflexivity | ].
  fold q. fold hits.
  destruct hits as [ | h hs] eqn:Hhits; [ exists 3%nat; reflexivity | ].
  exists 4%nat. reflexivity.
Qed.

(** X2.  When the handles cannot be built, a request with text and a label
    that converts gets the ERROR result whose message is "API configuration
    failed: " followed by the text of the failure; the attempt to build the
    handles is the only call. *)
Theorem configuration_failure_is_fatal
    (json_loads : string -> result pyval) (W : collaborators)
    (text : string) (image link : option string) (v : pyval) (z : Z)
    (tk gk : string) (e : exn) :
  text <> "" -> py_int v = Ok z -> v <> PyNone ->
  make_clients W tk gk = Some e ->
  run_pipeline json_loads W
    {| Text := Some text; Imagetext := image; Link_text := link; Real_Fake := Some v |}
    tk gk =
    (Ok (error_result ("API configuration failed: " ++ exn_str e)), [CallConfigure tk gk]).
Proof.
  intros Htext Hz Hv Hcfg.
  rewrite (@run_stages json_loads W tk gk _ z);
    [ | destruct text; [ congruence | reflexivity ]
      | destruct v; try reflexivity; congruence
      | exact Hz ].
  unfold stages_outcome. rewrite Hcfg. reflexivity.
Qed.

Lemma configuration_failure_is_fatal_witness :
  run_pipeline Json.loads
    {| make_clients := fun _ _ => Some (Exn ServiceError "invalid API key");
       generate_content := fun _ _ => Ok Sample.numbered_claims;
       tavily_search := fun _ _ => Ok None |}
    (Sample.request (PyInt 1)) "tavily-key" "gemini-key" =
    (Ok (error_result "API configuration failed: invalid API key"),
     [CallConfigure "tavily-key" "gemini-key"]).
Proof.
  apply (@configuration_failure_is_fatal Json.loads
           {| make_clients := fun _ _ => Some (Exn ServiceError "invalid API key");
              generate_content := fun _ _ => Ok Sample.numbered_claims;
              tavily_search := fun _ _ => Ok None |}
           "City launches tree-planting drive" None None (PyInt 1) 1
           "tavily-key" "gemini-key" (Exn ServiceError "invalid API key")).
  - discriminate.
  - reflexivity.
  - discriminate.
  - reflexivity.
Defined.

(** ** The search stage *)

(** X4.  The search stage never raises.  A failing service and an answer
    without a 'results' key both give no hit.  Otherwise every result gives
    one hit, in the service's order and however many there are (the bound of
    20 is only asked of the service), with the empty string in place of a
    missing url, title, content or date and 0 in place of a missing score. *)
Theorem search_stage_is_total
    (W : collaborators) (claims : list string) (is_real : bool) (t : trace) :
  exists hits,
    fst (search_supporting_evidence W claims is_real t) = Ok hits /\
    match tavily_search W t (evidence_request claims is_real) with
    | Ok (Some results) =>
        length hits = length results /\
        map url hits = map (fun r => get_or (raw_url r) "") results /\
        map title hits = map (fun r => get_or (raw_title r) "") results /\
        map content hits = map (fun r => get_or (raw_content r) "") results /\
        map score hits = map (fun r => get_or (raw_score r) 0%Q) results /\
        map published_date hits = map (fun r => get_or (raw_published_date r) "") results
    | Ok None => hits = []
    | Raise _ => hits = []
    end.
Proof.
  rewrite search_evidence_run. cbn [fst].
  eexists. split; [ reflexivity | ].
  unfold hits_of_outcome.
  destruct (tavily_search W t _) as [[results | ] | e]; try reflexivity.
  rewrite length_map, !map_map. repeat split.
Qed.

(** ** The ranking stage *)

Lemma startswith_split_two (sep s : string) :
  Str.startswith sep s = true -> sep <> "" ->
  exists inner rest, Str.split sep s = "" :: inner :: rest.
Proof.
  unfold Str.startswith, Str.split. intros Hpre Hsep.
  destruct s as [ | c r].
  - destruct sep; [ congruence | discriminate Hpre ].
  - cbn [Str.split_from]. rewrite Hpre.
    destruct (Str.split_from sep r (String.length sep - 1)) as [ | inner rest] eqn:Hsplit.
    + exfalso. exact (split_from_not_nil _ _ _ Hsplit).
    + exists inner, rest. reflexivity.
Qed.

(** X5.  Cleaning a response never raises: a text that starts with the
    fence has a part after it, so the index 1 is always in range. *)
Theorem clean_response_is_total (response_text : string) :
  exists cleaned, clean_response response_text = Ok cleaned.
Proof.
  unfold clean_response.
  destruct (Str.startswith "```" (Str.strip response_text)) eqn:Hfence.
  - assert (Hsep : "```" <> "") by discriminate.
    destruct (@startswith_split_two "```" _ Hfence Hsep) as (inner & rest & ->).
    cbn [py_index nth_error result_bind]. eexists. reflexivity.
  - cbn [result_bind]. eexists. reflexivity.
Qed.

Lemma fallback_sources_raise (l : list hit) :
  forall (i : nat) (e : exn),
    map_result fallback_source (enumerate_from i l) = Raise e <->
    e = index_error /\ Exists (fun h => has_host (url h) = false) l.
Proof.
  induction l as [ | h rest IH]; intros i e; cbn [enumerate_from map_result].
  - split; [ discriminate | ]. intros [_ Hex]. inversion Hex.
  - unfold fallback_source at 1.
    destruct (has_host (url h)) eqn:Hhost.
    + destruct (source_name_of_host _ Hhost) as [name ->]. cbn [result_bind].
      destruct (map_result fallback_source (enumerate_from (S i) rest)) as [ys | e'] eqn:Hrest;
        cbn [result_bind].
      * split; [ discriminate | ]. intros [-> Hex].
        inversion Hex as [? ? Hh | ? ? Hr]; subst; [ congruence | ].
        pose proof (proj2 (IH (S i) index_error) (conj eq_refl Hr)) as Heq.
        congruence.
      * split.
        -- intros Heq. injection Heq as <-.
           destruct (proj1 (IH (S i) e') Hrest) as [-> Hex].
           split; [ reflexivity | now apply Exists_cons_tl ].
        -- intros [-> Hex]. 
           inversion Hex as [? ? Hh | ? ? Hr]; subst; [ congruence | ].
           pose proof (proj2 (IH (S i) index_error) (conj eq_refl Hr)) as Heq.
           congruence.
    + rewrite (source_name_of_no_host _ Hhost). cbn [result_bind].
      split.
      * intros Heq. injection Heq as <-. split; [ reflexivity | now apply Exists_cons_hd ].
      * intros [-> _]. reflexivity.
Qed.

(** X6.  When the ranking stage raises.  It raises exactly when its response
    could not be decoded and one of the first five hits has a URL without a
    third '/'-separated part; the exception is then the [IndexError] "list
    index out of range".  In every other case it returns a value. *)
Theorem ranking_stage_raises_iff
    (json_loads : string -> result pyval) (W : collaborators)
    (news_text image_text : string) (is_real : bool) (claims : list string)
    (hits : list hit) (t : trace) (e : exn) :
  fst (select_top_5_with_explanations json_loads W news_text image_text is_real
         claims hits t) = Raise e <->
  e = Exn IndexError "list index out of range" /\
  undecodable json_loads
    (generate_content W t (ranking_prompt news_text image_text is_real claims hits)) /\
  Exists (fun h => has_host (url h) = false) (firstn 5 hits).
Proof.
  rewrite select_top_5_run. cbn [fst].
  unfold ranking_of_outcome, undecodable.
  destruct (result_bind _ _) as [v | e'] eqn:Hbind.
  - split; [ discriminate | ]. intros (_ & (e' & He' & _) & _). discriminate He'.
  - destruct (is_json_decode_error e') eqn:Hcls.
    + unfold fallback_result, enumerate.
      destruct (map_result fallback_source (enumerate_from 0 (firstn 5 hits)))
        as [sources | e''] eqn:Hmap; cbn [result_bind].
      * split; [ discriminate | ]. intros (-> & _ & Hex).
        pose proof (proj2 (fallback_sources_raise (firstn 5 hits) 0 index_error)
                      (conj eq_refl Hex)) as Heq.
        congruence.
      * apply fallback_sources_raise in Hmap. destruct Hmap as [-> Hex].
        split.
        -- intros Heq. injection Heq as <-.
           split; [ reflexivity | ]. split; [ | exact Hex ].
           exists e'. split; [ reflexivity | exact Hcls ].
        -- intros (-> & _). reflexivity.
    + split; [ discriminate | ].
      intros (_ & (e'' & He'' & Hcls'') & _).
      injection He'' as <-. congruence.
Qed.

Lemma sources_text_shown (l1 : list hit) :
  forall (l2 : list hit) (i : nat),
    map shown l1 = map shown l2 ->
    map (fun ir : nat * hit =>
           let (i, r) := ir in
           "Source " ++ Str.of_nat (i + 1) ++ ":" ++ nl
             ++ "Title: " ++ title r ++ nl
             ++ "URL: " ++ url r ++ nl
             ++ "Content: " ++ Str.take 400 (content r) ++ "...")
        (enumerate_from i l1) =
    map (fun ir : nat * hit =>
           let (i, r) := ir in
           "Source " ++ Str.of_nat (i + 1) ++ ":" ++ nl
             ++ "Title: " ++ title r ++ nl
             ++ "URL: " ++ url r ++ nl
             ++ "Content: " ++ Str.take 400 (content r) ++ "...")
        (enumerate_from i l2).
Proof.
  induction l1 as [ | h1 r1 IH]; intros [ | h2 r2] i Hshown; try discriminate Hshown.
  - reflexivity.
  - pose proof (f_equal (@List.hd _ (shown h1)) Hshown) as Hh.
    pose proof (f_equal (@List.tl _) Hshown) as Hrest.
    cbn [map List.hd List.tl] in Hh, Hrest.
    unfold shown in Hh.
    apply pair_equal_spec in Hh. destruct Hh as [Hh Hcontent].
    apply pair_equal_spec in Hh. destruct Hh as [Htitle Hurl].
    cbn [enumerate_from map]. rewrite Htitle, Hurl, Hcontent.
    f_equal. apply IH. exact Hrest.
Qed.

(** X7.  The text-generation call of the ranking stage depends on the hits
    only through the title, the URL and the first 400 characters of the
    content of the first 15 of them: scores, dates, longer content and later
    hits never reach the service. *)
Theorem ranking_call_sees_first_15_hits
    (json_loads : string -> result pyval) (W : collaborators)
    (news_text image_text : string) (is_real : bool) (claims : list string)
    (hits hits' : list hit) (t : trace) :
  map shown (firstn 15 hits) = map shown (firstn 15 hits') ->
  snd (select_top_5_with_explanations json_loads W news_text image_text is_real
         claims hits t) =
  snd (select_top_5_with_explanations json_loads W news_text image_text is_real
         claims hits' t).
Proof.
  intros Hshown. rewrite !select_top_5_run. cbn [snd].
  do 3 f_equal.
  unfold ranking_prompt, sources_text, enumerate.
  rewrite (sources_text_shown _ _ 0 Hshown). reflexivity.
Qed.

Lemma ranking_call_sees_first_15_hits_witness :
  let h := normalise_hit Sample.hindu_hit in
  let h' := {| url := url h; title := title h; content := content h;
               score := 1%Q; published_date := "2025-01-01" |} in
  snd (select_top_5_with_explanations Json.loads
         (Sample.world (Ok "") (Ok None) (Ok "{}"))
         "City launches tree-planting drive" "" true ["Trees were planted"]
         (repeat h 15 ++ [h]) []) =
  snd (select_top_5_with_explanations Json.loads
         (Sample.world (Ok "") (Ok None) (Ok "{}"))
         "City launches tree-planting drive" "" true ["Trees were planted"]
         (repeat h' 15) []).
Proof.
  intros h h'.
  apply (@ranking_call_sees_first_15_hits Json.loads
           (Sample.world (Ok "") (Ok None) (Ok "{}"))
           "City launches tree-planting drive" "" true ["Trees were planted"]
           (repeat h 15 ++ [h])%list (repeat h' 15) []).
  reflexivity.
Defined.

Lemma ranking_fallback_on_undecodable_response_witness :
  let W := Sample.world (Ok Sample.numbered_claims) (Ok None)
             (Ok "I am unable to answer in JSON.") in
  let hits := repeat (normalise_hit Sample.hindu_hit) 7 in
  exists sources,
    fst (select_top_5_with_explanations Json.loads W
           "City launches tree-planting drive" "" false ["Trees were planted"] hits []) =
      Ok (result_dict "FAKE"
            "Analysis indicates this news appears to be fake based on available sources."
            sources) /\
    length sources = 5%nat /\
    all_some (map rank_of sources) = Some [1; 2; 3; 4; 5] /\
    map (py_get "url") sources =
      repeat (Some (PyStr "https://www.thehindu.com/news/tree-drive")) 5 /\
    Forall is_medium sources.
Proof.
  intros W hits.
  assert (Hgen : generate_content W []
                   (ranking_prompt "City launches tree-planting drive" "" false
                      ["Trees were planted"] hits) = Ok "I am unable to answer in JSON.")
    by reflexivity.
  assert (Hclean : clean_response "I am unable to answer in JSON."
                   = Ok "I am unable to answer in JSON.")
    by (vm_compute; reflexivity).
  assert (Hloads : Json.loads "I am unable to answer in JSON." = Raise Json.decode_error)
    by (vm_compute; reflexivity).
  assert (Hcls : is_json_decode_error Json.decode_error = true) by reflexivity.
  assert (Hhosts : Forall (fun h => has_host (url h) = true) (firstn 5 hits))
    by (vm_compute; repeat constructor).
  destruct (@ranking_fallback_on_undecodable_response Json.loads W
              "City launches tree-planting drive" "" false ["Trees were planted"] hits []
              "I am unable to answer in JSON." "I am unable to answer in JSON."
              Json.decode_error Hgen Hclean Hloads Hcls Hhosts)
    as (sources & Hrun & Hlen & Hranks & Hurls & Hmed).
  exists sources. rewrite Hlen in Hranks.
  split; [ exact Hrun | ]. split; [ exact Hlen | ]. split; [ exact Hranks | ].
  split; [ exact Hurls | exact Hmed ].
Defined.

(** ** Failing services after configuration *)

Section Degradation.

Variable json_loads : string -> result pyval.
Variable W : collaborators.
Variables (text : string) (image link : option string) (v : pyval) (z : Z).
Variables tk gk : string.

Hypothesis text_given : text <> "".
Hypothesis label_converts : py_int v = Ok z.
Hypothesis label_given : v <> PyNone.
Hypothesis handles_built : make_clients W tk gk = None.

Let is_real : bool := negb (z =? 0)%Z.
Let p1 : string := claims_prompt text (get_or image "") is_real.
Let inp : news_input :=
  {| Text := Some text; Imagetext := image; Link_text := link; Real_Fake := Some v |}.

Lemma run_after_configuration :
  run_pipeline json_loads W inp tk gk =
    stages_outcome json_loads W tk gk text (get_or image "") z.
Proof.
  unfold inp.
  rewrite (@run_stages json_loads W tk gk _ z);
    [ reflexivity
    | destruct text; [ congruence | reflexivity ]
    | destruct v; try reflexivity; congruence
    | exact label_converts ].
Qed.

(** X8.  A text-generation service that fails on the extraction call does
    not fail the request: the run stops after that call with the label of
    the request and "Could not extract claims for verification". *)
Theorem extraction_failure_degrades (e : exn) :
  generate_content W [CallConfigure tk gk] p1 = Raise e ->
  run_pipeline json_loads W inp tk gk =
    (Ok (result_dict (label_of is_real) "Could not extract claims for verification" []),
     [CallConfigure tk gk; CallGenerate p1]).
Proof.
  intros Hgen. rewrite run_after_configuration.
  unfold p1, is_real in *.
  unfold stages_outcome. rewrite handles_built, Hgen. reflexivity.
Qed.

(** X9.  A search service that fails, or answers without a 'results' key,
    does not fail the request either: with the claims [claims] extracted, the
    run stops after the search call with the label of the request and the
    "No supporting sources found ..." explanation, as if nothing had been
    found. *)
Theorem search_failure_degrades (claims : list string) :
  fst (extract_claims_for_verification W text (get_or image "") is_real
         [CallConfigure tk gk]) = Ok claims ->
  claims <> [] ->
  (exists e, tavily_search W [CallConfigure tk gk; CallGenerate p1]
               (evidence_request claims is_real) = Raise e) \/
  tavily_search W [CallConfigure tk gk; CallGenerate p1]
    (evidence_request claims is_real) = Ok None ->
  run_pipeline json_loads W inp tk gk =
    (Ok (result_dict (label_of is_real)
           ("No supporting sources found to " ++ (if is_real then "verify" else "debunk")
              ++ " this news") []),
     [CallConfigure tk gk; CallGenerate p1; CallSearch (evidence_request claims is_real)]).
Proof.
  intros Hclaims Hne Hsearch. rewrite run_after_configuration.
  unfold p1, is_real in *.
  rewrite extract_claims_run in Hclaims. cbn [fst] in Hclaims.
  injection Hclaims as Hclaims.
  unfold stages_outcome. rewrite handles_built, Hclaims.
  destruct claims as [ | c cs]; [ congruence | ].
  cbn [app].
  destruct Hsearch as [[e ->] | ->]; reflexivity.
Qed.

(** X10.  A text-generation service that fails on the ranking call with
    anything but a decode error does not fail the request: with claims
    extracted and hits found, the run returns the label of the request, the
    explanation "Error during analysis: " followed by the text of the
    failure, and no source, after four calls. *)
Theorem ranking_failure_degrades (claims : list string) (hits : list hit) (e : exn) :
  fst (extract_claims_for_verification W text (get_or image "") is_real
         [CallConfigure tk gk]) = Ok claims ->
  claims <> [] ->
  fst (search_supporting_evidence W claims is_real
         [CallConfigure tk gk; CallGenerate p1]) = Ok hits ->
  hits <> [] ->
  let q := evidence_request claims is_real in
  let p2 := ranking_prompt text (get_or image "") is_real claims hits in
  generate_content W [CallConfigure tk gk; CallGenerate p1; CallSearch q] p2 = Raise e ->
  is_json_decode_error e = false ->
  run_pipeline json_loads W inp tk gk =
    (Ok (result_dict (label_of is_real) ("Error during analysis: " ++ exn_str e) []),
     [CallConfigure tk gk; CallGenerate p1; CallSearch q; CallGenerate p2]).
Proof.
  intros Hclaims Hne Hhits Hne' q p2 Hgen Hcls. rewrite run_after_configuration.
  subst q p2. unfold p1, is_real in *.
  rewrite extract_claims_run in Hclaims. cbn [fst] in Hclaims.
  injection Hclaims as Hclaims.
  rewrite search_evidence_run in Hhits. cbn [fst] in Hhits.
  injection Hhits as Hhits.
  unfold stages_outcome. rewrite handles_built, Hclaims.
  destruct claims as [ | c cs]; [ congruence | ].
  cbn [app] in *. rewrite Hhits.
  destruct hits as [ | h hs]; [ congruence | ].
  rewrite Hgen.
  unfold ranking_of_outcome. cbn [result_bind]. rewrite Hcls. reflexivity.
Qed.

End Degradation.

Lemma extraction_failure_degrades_witness :
  run_pipeline Json.loads
    (Sample.world (Raise (Exn ServiceError "quota exceeded")) (Ok None) (Ok ""))
    (Sample.request (PyInt 1)) "tavily-key" "gemini-key" =
    (Ok (result_dict "REAL" "Could not extract claims for verification" []),
     [CallConfigure "tavily-key" "gemini-key";
      CallGenerate (claims_prompt "City launches tree-planting drive" "" true)]).
Proof.
  apply (@extraction_failure_degrades Json.loads
           (Sample.world (Raise (Exn ServiceError "quota exceeded")) (Ok None) (Ok ""))
           "City launches tree-planting drive" None None (PyInt 1) 1
           "tavily-key" "gemini-key")
    with (e := Exn ServiceError "quota exceeded").
  - discriminate.
  - reflexivity.
  - discriminate.
  - reflexivity.
  - reflexivity.
Defined.

Lemma search_failure_degrades_witness :
  run_pipeline Json.loads
    (Sample.world (Ok Sample.numbered_claims) (Raise (Exn ServiceError "timeout")) (Ok ""))
    (Sample.request (PyInt 0)) "tavily-key" "gemini-key" =
    (Ok (result_dict "FAKE" "No supporting sources found to debunk this news" []),
     [CallConfigure "tavily-key" "gemini-key";
      CallGenerate (claims_prompt "City launches tree-planting drive" "" false);
      CallSearch
        (evidence_request
           ["The city launched a tree-planting drive"; "10,000 trees will be planted"]
           false)]).
Proof.
  apply (@search_failure_degrades Json.loads
           (Sample.world (Ok Sample.numbered_claims) (Raise (Exn ServiceError "timeout"))
              (Ok ""))
           "City launches tree-planting drive" None None (PyInt 0) 0
           "tavily-key" "gemini-key").
  - discriminate.
  - reflexivity.
  - discriminate.
  - reflexivity.
  - vm_compute. reflexivity.
  - discriminate.
  - left. eexists. reflexivity.
Defined.

Lemma ranking_failure_degrades_witness :
  exists p1 q p2,
    run_pipeline Json.loads
      (Sample.world (Ok Sample.numbered_claims) (Ok (Some [Sample.hindu_hit]))
         (Raise (Exn ServiceError "model overloaded")))
      (Sample.request (PyInt 1)) "tavily-key" "gemini-key" =
      (Ok (result_dict "REAL" "Error during analysis: model overloaded" []),
       [CallConfigure "tavily-key" "gemini-key"; CallGenerate p1; CallSearch q;
        CallGenerate p2]).
Proof.
  do 3 eexists.
  apply (@ranking_failure_degrades Json.loads
           (Sample.world (Ok Sample.numbered_claims) (Ok (Some [Sample.hindu_hit]))
              (Raise (Exn ServiceError "model overloaded")))
           "City launches tree-planting drive" None None (PyInt 1) 1
           "tavily-key" "gemini-key")
    with (claims := ["The city launched a tree-planting drive";
                     "10,000 trees will be planted"])
         (hits := [normalise_hit Sample.hindu_hit])
         (e := Exn ServiceError "model overloaded").
  - discriminate.
  - reflexivity.
  - discriminate.
  - reflexivity.
  - vm_compute. reflexivity.
  - discriminate.
  - vm_compute. reflexivity.
  - discriminate.
  - reflexivity.
  - reflexivity.
Defined.

(** ** The command-line driver and the pipeline *)

(** X11.  A record and keys that pass the script's checks have text and a
    Real/Fake entry, but the entry is not examined: a null label and a label
    [int] rejects both go through, and the pipeline answers them with its
    ERROR result without any call; every other label makes the pipeline
    build the handles. *)
Theorem preflight_leaves_the_label_unchecked
    (json_loads : string -> result pyval) (W : collaborators)
    (inp : news_input) (tk gk : string) :
  Driver.preflight tk gk inp = None ->
  tk <> "" /\ gk <> "" /\
  exists text v,
    Text inp = Some text /\ text <> "" /\ Real_Fake inp = Some v /\
    ((v = PyNone /\
      run_pipeline json_loads W inp tk gk =
        (Ok (error_result "Real/Fake label is required (1 for real, 0 for fake)"), [])) \/
     (exists e, v <> PyNone /\ py_int v = Raise e /\
                run_pipeline json_loads W inp tk gk = (Ok (error_result (exn_str e)), [])) \/
     (exists z r t, v <> PyNone /\ py_int v = Ok z /\
                    run_pipeline json_loads W inp tk gk = (Ok r, CallConfigure tk gk :: t))).
Proof.
  unfold Driver.preflight. intros Hpre.
  destruct tk as [ | c1 tk']; [ discriminate Hpre | ].
  destruct gk as [ | c2 gk']; [ discriminate Hpre | ].
  cbn in Hpre.
  destruct (Text inp) as [text | ] eqn:Htext; [ | discriminate Hpre ].
  destruct text as [ | c text']; [ discriminate Hpre | ].
  cbn in Hpre.
  destruct (Real_Fake inp) as [v | ] eqn:Hlabel; [ | discriminate Hpre ].
  split; [ discriminate | ]. split; [ discriminate | ].
  exists (String c text'), v.
  split; [ reflexivity | ]. split; [ discriminate | ]. split; [ reflexivity | ].
  assert (Htruthy : Str.truthy (get_or (Text inp) "") = true) by (now rewrite Htext).
  destruct (is_none v) eqn:Hnone.
  - left. split; [ destruct v; try discriminate Hnone; reflexivity | ].
    apply run_without_label; [ exact Htruthy | now rewrite Hlabel ].
  - assert (Hv : v <> PyNone) by (intros ->; discriminate Hnone).
    assert (Hnone' : is_none (get_or (Real_Fake inp) PyNone) = false)
      by (now rewrite Hlabel).
    destruct (py_int v) as [z | e] eqn:Hint.
    + right; right.
      assert (Hint' : py_int (get_or (Real_Fake inp) PyNone) = Ok z) by (now rewrite Hlabel).
      rewrite (run_stages json_loads W (String c1 tk') (String c2 gk') inp
                 Htruthy Hnone' Hint').
      unfold stages_outcome.
      exists z.
      destruct (make_clients W _ _); [ eexists; eexists; repeat split; eauto | ].
      destruct (claims_of_outcome _); [ eexists; eexists; repeat split; eauto | ].
      destruct (hits_of_outcome _); [ eexists; eexists; repeat split; eauto | ].
      destruct (ranking_of_outcome _ _ _ _); eexists; eexists; repeat split; eauto.
    + right; left. exists e. split; [ exact Hv | ]. split; [ reflexivity | ].
      apply run_bad_label; [ exact Htruthy | exact Hnone' | now rewrite Hlabel ].
Qed.

Lemma preflight_leaves_the_label_unchecked_witness :
  exists e,
    py_int (PyStr "real") = Raise e /\
    run_pipeline Json.loads
      (Sample.world (Ok Sample.numbered_claims) (Ok None) (Ok ""))
      (Sample.request (PyStr "real")) "tavily-key" "gemini-key" =
      (Ok (error_result (exn_str e)), []).
Proof.
  assert (Hpre : Driver.preflight "tavily-key" "gemini-key" (Sample.request (PyStr "real"))
                 = None) by reflexivity.
  destruct (@preflight_leaves_the_label_unchecked Json.loads
              (Sample.world (Ok Sample.numbered_claims) (Ok None) (Ok ""))
              (Sample.request (PyStr "real")) "tavily-key" "gemini-key" Hpre)
    as (_ & _ & text & v & _ & _ & Hv & Hcases).
  injection Hv as <-.
  destruct Hcases as [[Hnone _] | [(e & _ & He & Hrun) | (z & r & t & _ & Hz & _)]].
  - discriminate Hnone.
  - exists e. split; assumption.
  - discriminate Hz.
Defined.

Lemma stages_label (json_loads : string -> result pyval) (W : collaborators)
    (tk gk text image : string) (z : Z) :
  make_clients W tk gk = None -> hits_have_hosts W ->
  exists r t,
    stages_outcome json_loads W tk gk text image z = (Ok r, t) /\
    (py_get "label" r = Some (PyStr (label_of (negb (z =? 0)%Z))) \/
     decoded_by_ranker json_loads W t r).
Proof.
  intros Hcfg Hhosts.
  destruct (stages_outcome_cases json_loads W tk gk text image z) as (r & t & -> & Hcases).
  exists r, t. split; [ reflexivity | ].
  cbv zeta in Hcases.
  destruct Hcases as [(e & He & _) | (_ & Hcases)]; [ congruence | ].
  destruct Hcases as [-> | [-> | [Hdec | [(e & ->) | Hfb]]]].
  - left. reflexivity.
  - left. reflexivity.
  - right. exact Hdec.
  - left. reflexivity.
  - destruct Hfb as (t1 & q & hits & -> & Hfb).
    pose proof (hits_of_outcome_hosts t1 q Hhosts) as Hall.
    destruct (@fallback_result_succeeds (negb (z =? 0)%Z) _ Hall) as [r' Hok].
    destruct Hfb as [Hfb | (e & Hfb & _)]; [ | congruence ].
    destruct (fallback_result_shape _ _ Hfb) as (sources & -> & _).
    left. reflexivity.
Qed.

Lemma claims_prompt_names_label (news_text image_text : string) (is_real : bool) :
  Str.startswith
    ("This news article is labeled as " ++ (if is_real then "REAL" else "FAKE") ++ ".")
    (claims_prompt news_text image_text is_real) = true.
Proof. destruct is_real; reflexivity. Qed.

Lemma stages_first_calls (json_loads : string -> result pyval) (W : collaborators)
    (tk gk text image : string) (z : Z) :
  exists r rest,
    stages_outcome json_loads W tk gk text image z = (Ok r, CallConfigure tk gk :: rest) /\
    (make_clients W tk gk = None ->
     exists rest',
       rest = CallGenerate (claims_prompt text image (negb (z =? 0)%Z)) :: rest').
Proof.
  unfold stages_outcome.
  destruct (make_clients W tk gk) as [e | ].
  { eexists; eexists. split; [ reflexivity | ]. discriminate. }
  destruct (claims_of_outcome _) as [ | c cs].
  { eexists; eexists. split; [ reflexivity | ]. intros _. eexists. reflexivity. }
  destruct (hits_of_outcome _) as [ | h hs].
  { eexists; eexists. split; [ reflexivity | ]. intros _. eexists. reflexivity. }
  destruct (ranking_of_outcome _ _ _ _);
    eexists; eexists; (split; [ reflexivity | ]); intros _; eexists; reflexivity.
Qed.

(** C10 as stated fails: the float 0.5 is not zero and [int] converts it,
    but to 0, so the pipeline takes it for the fake label. *)
Lemma non_zero_float_label_counterexample :
  let W := Sample.world (Ok "Nothing to check here.") (Ok None) (Ok "") in
  Sample.half = PyFloat (Finite 1 (-1)) /\
  Driver.py_truthy Sample.half = true /\
  py_int Sample.half = Ok 0 /\
  exists r t,
    run_pipeline Json.loads W (Sample.request Sample.half) "tavily-key" "gemini-key"
      = (Ok r, t) /\
    py_get "label" r = Some (PyStr "FAKE") /\
    py_get "label" r <> Some (PyStr "REAL").
Proof.
  cbv zeta. repeat split.
  eexists; eexists. split; [ vm_compute; reflexivity | ].
  split; [ reflexivity | discriminate ].
Qed.

(** C10 (amended).  The Real/Fake field is not confined to 0 and 1.  A
    value that [int] converts to [z] -- 2, -1, the string "1", but also the
    float 0.5, which converts to 0 -- is accepted, and what counts is [z]:
    the label is REAL when [z] is not zero and FAKE when it is zero.  The run
    is the run for the label 1, respectively 0; it goes on to build the
    handles; when they are built, the extraction prompt opens with "This news
    article is labeled as REAL." (respectively FAKE), and, the hits having
    hosts, the label of the result is REAL (respectively FAKE) unless the
    result is the decoded ranking response.  A value [int] rejects, such as
    the string "real", gives the ERROR-shaped result with [int]'s own
    message, before any call, and that message is not the validation message
    about the label. *)
Theorem label_follows_int_conversion
    (json_loads : string -> result pyval) (W : collaborators)
    (text : string) (image link : option string) (v : pyval) (tk gk : string) :
  text <> "" -> v <> PyNone ->
  let run := fun label =>
    run_pipeline json_loads W
      {| Text := Some text; Imagetext := image; Link_text := link; Real_Fake := Some label |}
      tk gk in
  (forall z, py_int v = Ok z ->
     let label := if (z =? 0)%Z then "FAKE" else "REAL" in
     run v = run (PyInt (if (z =? 0)%Z then 0 else 1)) /\
     exists r t,
       run v = (Ok r, CallConfigure tk gk :: t) /\
       (make_clients W tk gk = None ->
        (exists p rest,
           t = CallGenerate p :: rest /\
           Str.startswith ("This news article is labeled as " ++ label ++ ".") p = true) /\
        (hits_have_hosts W ->
         py_get "label" r = Some (PyStr label) \/
         decoded_by_ranker json_loads W (CallConfigure tk gk :: t) r))) /\
  (forall e, py_int v = Raise e ->
     run v = (Ok (error_result (exn_str e)), []) /\
     exn_str e <> "Real/Fake label is required (1 for real, 0 for fake)") /\
  py_int (PyInt 2) = Ok 2 /\
  py_int (PyInt (-1)) = Ok (-1) /\
  py_int (PyStr "1") = Ok 1 /\
  py_int (PyFloat (Finite 1 (-1))) = Ok 0 /\
  py_int (PyStr "real") =
    Raise (Exn ValueError "invalid literal for int() with base 10: 'real'").
Proof.
  intros Htext Hv run.
  assert (Htruthy : Str.truthy text = true)
    by (destruct text; [ congruence | reflexivity ]).
  assert (Hnone : is_none v = false)
    by (destruct v; try reflexivity; congruence).
  split; [ | split; [ | repeat split; reflexivity ] ].
  - intros z Hz label. subst run. cbv beta.
    rewrite (@run_stages json_loads W tk gk _ z) by assumption.
    cbn [Text Imagetext].
    assert (Hlabel : label_of (negb (z =? 0)%Z) = label)
      by (subst label; destruct (z =? 0)%Z; reflexivity).
    split.
    + rewrite (@run_stages json_loads W tk gk _ (if (z =? 0)%Z then 0 else 1));
        [ | assumption | reflexivity | reflexivity ].
      cbn [Text Imagetext].
      unfold stages_outcome.
      replace (negb ((if (z =? 0)%Z then 0 else 1) =? 0)%Z) with (negb (z =? 0)%Z)
        by (destruct (z =? 0)%Z; reflexivity).
      reflexivity.
    + destruct (stages_first_calls json_loads W tk gk text (get_or image "") z)
        as (r & t & Hrun & Hcalls).
      exists r, t. split; [ exact Hrun | ].
      intros Hcfg. split.
      * destruct (Hcalls Hcfg) as [rest ->].
        eexists; eexists. split; [ reflexivity | ].
        subst label.
        pose proof (claims_prompt_names_label text (get_or image "") (negb (z =? 0)%Z))
          as Hprompt.
        destruct (z =? 0)%Z; exact Hprompt.
      * intros Hhosts.
        destruct (@stages_label json_loads W tk gk text (get_or image "") z Hcfg Hhosts)
          as (r' & t' & Hrun' & Hr').
        rewrite Hrun in Hrun'. injection Hrun' as <- <-.
        rewrite Hlabel in Hr'. exact Hr'.
  - intros e He. split.
    + subst run. cbv beta. apply run_bad_label; assumption.
    + apply (py_int_error_message v He).
Qed.

Lemma label_follows_int_conversion_witness :
  let run := fun label =>
    run_pipeline Json.loads
      (Sample.world (Ok Sample.numbered_claims) (Ok None) (Ok ""))
      (Sample.request label) "tavily-key" "gemini-key" in
  run (PyStr "1") = run (PyInt 1) /\
  run Sample.half = run (PyInt 0) /\
  run (PyStr "real") =
    (Ok (error_result "invalid literal for int() with base 10: 'real'"), []).
Proof.
  intros run.
  assert (Hne : "City launches tree-planting drive" <> "") by discriminate.
  split; [ | split ].
  - assert (Hv : PyStr "1" <> PyNone) by discriminate.
    destruct (@label_follows_int_conversion Json.loads
                (Sample.world (Ok Sample.numbered_claims) (Ok None) (Ok ""))
                "City launches tree-planting drive" None None (PyStr "1")
                "tavily-key" "gemini-key" Hne Hv) as [Hok _].
    destruct (Hok 1 eq_refl) as [Hrun _]. exact Hrun.
  - assert (Hv : Sample.half <> PyNone) by discriminate.
    destruct (@label_follows_int_conversion Json.loads
                (Sample.world (Ok Sample.numbered_claims) (Ok None) (Ok ""))
                "City launches tree-planting drive" None None Sample.half
                "tavily-key" "gemini-key" Hne Hv) as [Hok _].
    destruct (Hok 0 eq_refl) as [Hrun _]. exact Hrun.
  - assert (Hv : PyStr "real" <> PyNone) by discriminate.
    destruct (@label_follows_int_conversion Json.loads
                (Sample.world (Ok Sample.numbered_claims) (Ok None) (Ok ""))
                "City launches tree-planting drive" None None (PyStr "real")
                "tavily-key" "gemini-key" Hne Hv) as [_ [Herr _]].
    destruct (Herr _ eq_refl) as [Hrun _]. exact Hrun.
Defined.

(** X12.  The label the script prints and the label of the result.  The
    script prints REAL only for a label equal to 1, the pipeline takes
    every non-zero integer for real: for an integer label [z], handles that
    can be built and hits with hosts, the printed label is the label of the
    result exactly when [z] is 0 or 1 -- unless the result is the decoded
    ranking response, whose label is its own. *)
Theorem displayed_label_agrees_iff_zero_or_one
    (json_loads : string -> result pyval) (W : collaborators)
    (text : string) (image link : option string) (z : Z) (tk gk : string) :
  text <> "" -> make_clients W tk gk = None -> hits_have_hosts W ->
  let inp := {| Text := Some text; Imagetext := image; Link_text := link;
                Real_Fake := Some (PyInt z) |} in
  exists r t,
    run_pipeline json_loads W inp tk gk = (Ok r, t) /\
    (decoded_by_ranker json_loads W t r \/
     (py_get "label" r = Some (PyStr (Driver.displayed_label inp)) <-> z = 0 \/ z = 1)).
Proof.
  intros Htext Hcfg Hhosts inp. subst inp.
  rewrite (@run_stages json_loads W tk gk _ z);
    [ | destruct text; [ congruence | reflexivity ] | reflexivity | reflexivity ].
  cbn [Text Imagetext get_or].
  destruct (@stages_label json_loads W tk gk text (get_or image "") z Hcfg Hhosts)
    as (r & t & -> & [Hlabel | Hdec]).
  2:{ exists r, t. split; [ reflexivity | left; exact Hdec ]. }
  exists r, t. split; [ reflexivity | ]. right.
  rewrite Hlabel. unfold Driver.displayed_label, Driver.equals_one. cbn [Real_Fake get_or].
  destruct (Z.eqb_spec z 0) as [-> | Hnot0].
  - cbn. split; [ intros _; left; reflexivity | reflexivity ].
  - destruct (Z.eqb_spec z 1) as [-> | Hnot1].
    + cbn. split; [ intros _; right; reflexivity | reflexivity ].
    + cbn. split; [ intros H; discriminate H | intros [H | H]; contradiction ].
Qed.

Lemma displayed_label_agrees_iff_zero_or_one_witness :
  let W := Sample.world (Ok "Nothing to check here.") (Ok None) (Ok "") in
  let inp := Sample.request (PyInt 2) in
  exists r t,
    run_pipeline Json.loads W inp "tavily-key" "gemini-key" = (Ok r, t) /\
    (decoded_by_ranker Json.loads W t r \/
     (py_get "label" r = Some (PyStr (Driver.displayed_label inp)) <-> 2 = 0 \/ 2 = 1)).
Proof.
  intros W inp.
  apply (@displayed_label_agrees_iff_zero_or_one Json.loads W
           "City launches tree-planting drive" None None 2 "tavily-key" "gemini-key").
  - discriminate.
  - reflexivity.
  - intros t q results Hfound. discriminate Hfound.
Defined.

(** ** Facts about the string primitives *)

Unset Implicit Arguments.

Module StrFacts.

Lemma app_assoc (a b c : string) : (a ++ b) ++ c = a ++ (b ++ c).
Proof. induction a as [ | x a IH]; cbn; [ reflexivity | now rewrite IH ]. Qed.

Lemma app_nil_r (a : string) : a ++ "" = a.
Proof. induction a as [ | x a IH]; cbn; [ reflexivity | now rewrite IH ]. Qed.

Lemma rev_onto_app (s : string) : forall acc, Str.rev_onto s acc = Str.rev s ++ acc.
Proof.
  unfold Str.rev. induction s as [ | c r IH]; intros acc; cbn [Str.rev_onto].
  - reflexivity.
  - rewrite (IH (String c acc)), (IH (String c "")), app_assoc. reflexivity.
Qed.

Lemma rev_cons (c : ascii) (r : string) : Str.rev (String c r) = Str.rev r ++ String c "".
Proof. unfold Str.rev at 1. cbn [Str.rev_onto]. apply rev_onto_app. Qed.

Lemma rev_app_char (s : string) (c : ascii) :
  Str.rev (s ++ String c "") = String c (Str.rev s).
Proof.
  induction s as [ | a r IH]; [ reflexivity | ].
  cbn [append]. rewrite !rev_cons, IH. reflexivity.
Qed.

Lemma rev_not_empty (c : ascii) (r : string) : Str.rev (String c r) <> "".
Proof. rewrite rev_cons. destruct (Str.rev r); discriminate. Qed.

Lemma lstrip_app_char (p : ascii -> bool) (s : string) (c : ascii) :
  Str.lstrip_with p (s ++ String c "") =
    match Str.lstrip_with p s with
    | EmptyString => if p c then "" else String c ""
    | y => y ++ String c ""
    end.
Proof.
  induction s as [ | a r IH]; cbn [append Str.lstrip_with].
  - destruct (p c); reflexivity.
  - destruct (p a); [ exact IH | reflexivity ].
Qed.

(** [rstrip] read from the left. *)
Lemma rstrip_cons (p : ascii -> bool) (c : ascii) (r : string) :
  Str.rstrip_with p (String c r) =
    match Str.rstrip_with p r with
    | EmptyString => if p c then "" else String c ""
    | y => String c y
    end.
Proof.
  unfold Str.rstrip_with. rewrite rev_cons, lstrip_app_char.
  destruct (Str.lstrip_with p (Str.rev r)) as [ | a y] eqn:Hl.
  - destruct (p c); reflexivity.
  - rewrite rev_app_char.
    destruct (Str.rev (String a y)) eqn:Hrev; [ | reflexivity ].
    exfalso. exact (@rev_not_empty _ _ Hrev).
Qed.

Lemma rstrip_empty (p : ascii -> bool) : Str.rstrip_with p "" = "".
Proof. reflexivity. Qed.

Lemma rstrip_idempotent (p : ascii -> bool) (s : string) :
  Str.rstrip_with p (Str.rstrip_with p s) = Str.rstrip_with p s.
Proof.
  induction s as [ | c r IH]; [ reflexivity | ].
  rewrite rstrip_cons.
  destruct (Str.rstrip_with p r) as [ | a y] eqn:Hr.
  - destruct (p c) eqn:Hc; [ reflexivity | ].
    rewrite rstrip_cons, rstrip_empty, Hc. reflexivity.
  - rewrite rstrip_cons, IH. reflexivity.
Qed.

Lemma rstrip_app_keep (p : ascii -> bool) (a b : string) :
  Str.rstrip_with p b <> "" ->
  Str.rstrip_with p (a ++ b) = a ++ Str.rstrip_with p b.
Proof.
  intros Hb. induction a as [ | x a IH]; [ reflexivity | ].
  cbn [append]. rewrite rstrip_cons, IH.
  destruct (a ++ Str.rstrip_with p b) eqn:Hab; [ | reflexivity ].
  destruct a; cbn in Hab; [ congruence | discriminate ].
Qed.

Lemma rstrip_app_space (p : ascii -> bool) (y : string) (c : ascii) :
  p c = true -> Str.rstrip_with p (y ++ String c "") = Str.rstrip_with p y.
Proof.
  intros Hc. induction y as [ | a r IH]; cbn [append].
  - rewrite rstrip_cons, rstrip_empty, Hc. reflexivity.
  - rewrite !rstrip_cons, IH. reflexivity.
Qed.

(** After [rstrip] a string that did not start with a stripped character
    still does not. *)
Lemma lstrip_rstrip_head (p : ascii -> bool) (s : string) :
  Str.lstrip_with p s = s ->
  Str.lstrip_with p (Str.rstrip_with p s) = Str.rstrip_with p s.
Proof.
  destruct s as [ | c r]; [ reflexivity | ].
  cbn [Str.lstrip_with]. destruct (p c) eqn:Hc.
  - intros Hl. exfalso.
    assert (Hlen : (String.length (Str.lstrip_with p r) <= String.length r)%nat).
    { clear. induction r as [ | a r IH]; cbn; [ lia | ]. destruct (p a); cbn; lia. }
    rewrite Hl in Hlen. cbn in Hlen. lia.
  - intros _. rewrite rstrip_cons.
    destruct (Str.rstrip_with p r); [ rewrite Hc | ];
      cbn [Str.lstrip_with]; rewrite Hc; reflexivity.
Qed.

Lemma lstrip_idempotent (p : ascii -> bool) (s : string) :
  Str.lstrip_with p (Str.lstrip_with p s) = Str.lstrip_with p s.
Proof.
  induction s as [ | c r IH]; [ reflexivity | ].
  cbn [Str.lstrip_with]. destruct (p c) eqn:Hc; [ exact IH | ].
  cbn [Str.lstrip_with]. rewrite Hc. reflexivity.
Qed.

(** [strip] leaves a stripped string alone. *)
Lemma strip_idempotent (s : string) : Str.strip (Str.strip s) = Str.strip s.
Proof.
  unfold Str.strip.
  rewrite (@lstrip_rstrip_head Str.isspace (Str.lstrip_with Str.isspace s))
    by apply lstrip_idempotent.
  apply rstrip_idempotent.
Qed.

Lemma lstrip_length (p : ascii -> bool) (s : string) :
  (String.length (Str.lstrip_with p s) <= String.length s)%nat.
Proof.
  induction s as [ | a r IH]; cbn; [ lia | ]. destruct (p a); cbn; lia.
Qed.

Lemma rstrip_length (p : ascii -> bool) (s : string) :
  (String.length (Str.rstrip_with p s) <= String.length s)%nat.
Proof.
  induction s as [ | a r IH]; [ cbn; lia | ].
  rewrite rstrip_cons.
  destruct (Str.rstrip_with p r); [ destruct (p a); cbn; lia | cbn in *; lia ].
Qed.

Lemma lstrip_same_length (p : ascii -> bool) (s : string) :
  String.length (Str.lstrip_with p s) = String.length s -> Str.lstrip_with p s = s.
Proof.
  destruct s as [ | a r]; [ reflexivity | ].
  cbn [Str.lstrip_with]. destruct (p a); [ | reflexivity ].
  intros Hlen. pose proof (lstrip_length p r) as Hle. cbn in Hlen. lia.
Qed.

(** A string equal to its [strip] has nothing to strip at either end. *)
Lemma stripped_both_ends (s : string) :
  Str.strip s = s ->
  Str.lstrip_with Str.isspace s = s /\ Str.rstrip_with Str.isspace s = s.
Proof.
  unfold Str.strip. intros Hs.
  assert (Hl : Str.lstrip_with Str.isspace s = s).
  { apply lstrip_same_length.
    pose proof (lstrip_length Str.isspace s) as H1.
    pose proof (rstrip_length Str.isspace (Str.lstrip_with Str.isspace s)) as H2.
    rewrite Hs in H2. lia. }
  split; [ exact Hl | ]. now rewrite Hl in Hs.
Qed.

End StrFacts.

(** ** What the extraction stage returns *)

Lemma split_once_not_nil (sep : ascii) (s : string) : Str.split_once sep s <> [].
Proof.
  induction s as [ | c r IH]; cbn [Str.split_once]; [ discriminate | ].
  destruct (Ascii.eqb c sep); [ discriminate | ].
  unfold Str.cons_head. destruct (Str.split_once sep r); discriminate.
Qed.

Lemma py_last_not_nil {A : Type} (l : list A) : l <> [] -> exists x, py_last l = Ok x.
Proof.
  intros Hl. unfold py_last, py_index.
  destruct (List.rev l) as [ | x rest] eqn:Hrev.
  - apply (f_equal (@List.rev A)) in Hrev. rewrite rev_involutive in Hrev. contradiction.
  - exists x. reflexivity.
Qed.

Lemma claim_of_line_cases (line : string) :
  claim_of_line line = Ok None \/
  exists c, claim_of_line line = Ok (Some c) /\ c <> "" /\ Str.strip c = c.
Proof.
  unfold claim_of_line.
  destruct (Str.strip line) as [ | c0 rest] eqn:Hline; [ left; reflexivity | ].
  destruct (Str.isdigit c0 || Str.startswith "-" (String c0 rest)); [ | left; reflexivity ].
  destruct (py_last_not_nil _ (split_once_not_nil "."%char (String c0 rest))) as [tail ->].
  destruct (Str.strip (Str.lstrip_dash (Str.strip tail))) as [ | c1 claim] eqn:Hclaim.
  - left. reflexivity.
  - right. exists (String c1 claim). split; [ reflexivity | ]. split; [ discriminate | ].
    rewrite <- Hclaim. apply StrFacts.strip_idempotent.
Qed.

Lemma claims_loop_tidy (lines : list string) :
  forall acc : list string,
    Forall (fun c => c <> "" /\ Str.strip c = c) acc ->
    exists claims,
      claims_loop lines acc = Ok claims /\
      Forall (fun c => c <> "" /\ Str.strip c = c) claims.
Proof.
  induction lines as [ | line rest IH]; intros acc Hacc; cbn [claims_loop].
  - exists acc. split; [ reflexivity | exact Hacc ].
  - destruct (claim_of_line_cases line) as [-> | (c & -> & Hc)].
    + apply IH. exact Hacc.
    + apply IH. apply Forall_app. split; [ exact Hacc | ].
      constructor; [ exact Hc | constructor ].
Qed.

(** X13.  The extraction stage never raises, whatever the service does, and
    makes exactly one text-generation call.  It returns at most five claims,
    none of them empty and none with whitespace at either end. *)
Theorem extraction_returns_tidy_claims
    (W : collaborators) (news_text image_text : string) (is_real : bool) (t : trace) :
  exists claims,
    extract_claims_for_verification W news_text image_text is_real t =
      (Ok claims, (t ++ [CallGenerate (claims_prompt news_text image_text is_real)])%list) /\
    (length claims <= 5)%nat /\
    Forall (fun c => c <> "" /\ Str.strip c = c) claims.
Proof.
  rewrite extract_claims_run.
  eexists. split; [ reflexivity | ]. split; [ apply claims_of_outcome_length | ].
  unfold claims_of_outcome.
  destruct (generate_content W t _) as [text | e]; cbn [result_bind]; [ | constructor ].
  unfold parse_claims.
  destruct (claims_loop_tidy (Str.split nl (Str.strip text)) [] (Forall_nil _))
    as (claims & -> & Htidy).
  apply Forall_forall. intros c Hin.
  apply (proj1 (Forall_forall _ _) Htidy).
  rewrite <- (firstn_skipn 5 claims). apply in_or_app. left. exact Hin.
Qed.

(** ** The numbered list, written and read back *)

Lemma to_uint_not_nil (n : nat) : Nat.to_uint n <> Decimal.Nil.
Proof.
  intros Hnil.
  pose proof (DecimalNat.Unsigned.to_of (Nat.to_uint n)) as Hn.
  rewrite DecimalNat.Unsigned.of_to, Hnil in Hn. discriminate Hn.
Qed.

Lemma of_nat_head (n : nat) :
  exists c r, Str.of_nat n = String c r /\ Str.isdigit c = true /\ Str.isspace c = false.
Proof.
  unfold Str.of_nat. pose proof (to_uint_not_nil n) as Hnil.
  destruct (Nat.to_uint n); [ contradiction | .. ];
    cbn [NilEmpty.string_of_uint]; eexists; eexists; repeat split.
Qed.

Lemma digits_split_once (d : Decimal.uint) (rest : string) :
  Str.split_once "."%char (NilEmpty.string_of_uint d ++ String "."%char rest) =
    [NilEmpty.string_of_uint d; rest].
Proof.
  induction d; cbn [NilEmpty.string_of_uint append Str.split_once];
    [ reflexivity | .. ]; rewrite IHd; reflexivity.
Qed.

Lemma prefix_empty (s : string) : String.prefix "" s = true.
Proof. destruct s; reflexivity. Qed.

Lemma occurs_char_cons (a x : ascii) (r : string) :
  occurs (String a "") (String x r) =
    (if ascii_dec a x then true else false) || occurs (String a "") r.
Proof.
  cbn [occurs String.prefix].
  destruct (ascii_dec a x); [ now rewrite prefix_empty | reflexivity ].
Qed.

Lemma occurs_char_app (a : ascii) (u v : string) :
  occurs (String a "") (u ++ v) = occurs (String a "") u || occurs (String a "") v.
Proof.
  induction u as [ | x u IH]; [ reflexivity | ].
  cbn [append]. rewrite !occurs_char_cons, IH. apply orb_assoc.
Qed.

Lemma digits_without (a : ascii) (d : Decimal.uint) :
  Str.is_ascii_digit a = false -> occurs (String a "") (NilEmpty.string_of_uint d) = false.
Proof.
  intros Ha.
  induction d; cbn [NilEmpty.string_of_uint]; [ reflexivity | .. ];
    rewrite occurs_char_cons, IHd;
    (destruct (ascii_dec a _) as [-> | _]; [ discriminate Ha | reflexivity ]).
Qed.

Lemma split_char_single (a : ascii) (l : string) :
  occurs (String a "") l = false -> Str.split (String a "") l = [l].
Proof.
  unfold Str.split. induction l as [ | x r IH]; [ reflexivity | ].
  rewrite occurs_char_cons. intros Hocc. apply orb_false_elim in Hocc.
  destruct Hocc as [Hx Hr].
  cbn [Str.split_from String.prefix].
  destruct (ascii_dec a x); [ discriminate Hx | ].
  rewrite (IH Hr). reflexivity.
Qed.

Lemma split_char_app (a : ascii) (l rest : string) :
  occurs (String a "") l = false ->
  Str.split (String a "") (l ++ String a rest) = l :: Str.split (String a "") rest.
Proof.
  unfold Str.split. induction l as [ | x r IH].
  - intros _. cbn [append Str.split_from String.prefix].
    destruct (ascii_dec a a); [ | contradiction ].
    rewrite prefix_empty. reflexivity.
  - rewrite occurs_char_cons. intros Hocc. apply orb_false_elim in Hocc.
    destruct Hocc as [Hx Hr].
    cbn [append Str.split_from String.prefix].
    destruct (ascii_dec a x); [ discriminate Hx | ].
    rewrite (IH Hr). reflexivity.
Qed.

Lemma numbered_line (i : nat) (c : string) :
  tidy_claim c -> numbered_line_facts (Str.of_nat (i + 1) ++ ". " ++ c) c.
Proof.
  intros (Hne & Hstrip & Hnl & Hdash).
  destruct (StrFacts.stripped_both_ends c Hstrip) as [Hl Hr].
  destruct (of_nat_head (i + 1)) as (c0 & r & Hd & Hdig & Hsp).
  assert (Hrs : Str.rstrip_with Str.isspace (Str.of_nat (i + 1) ++ ". " ++ c)
                = Str.of_nat (i + 1) ++ ". " ++ c).
  { rewrite <- StrFacts.app_assoc.
    rewrite StrFacts.rstrip_app_keep by (rewrite Hr; exact Hne).
    now rewrite Hr. }
  assert (Hls : Str.lstrip_with Str.isspace (Str.of_nat (i + 1) ++ ". " ++ c)
                = Str.of_nat (i + 1) ++ ". " ++ c).
  { rewrite Hd. cbn [append Str.lstrip_with]. rewrite Hsp. reflexivity. }
  unfold numbered_line_facts. repeat split.
  - unfold claim_of_line, Str.strip. rewrite Hls, Hrs.
    rewrite Hd at 1. cbn [append]. rewrite Hdig. cbn [orb].
    unfold Str.of_nat.
    change (". " ++ c) with (String "."%char (String " "%char c)).
    rewrite digits_split_once.
    change (py_last [NilEmpty.string_of_uint (Nat.to_uint (i + 1)); String " "%char c])
      with (@Ok string (String " "%char c)).
    cbv beta iota.
    change (Str.lstrip_with Str.isspace (String " "%char c))
      with (Str.lstrip_with Str.isspace c).
    rewrite Hl, Hr, Hdash, Hl, Hr.
    destruct c; [ congruence | reflexivity ].
  - unfold nl, Str.of_nat. rewrite !occurs_char_app.
    rewrite digits_without by reflexivity.
    change (occurs (String (ascii_of_nat 10) "") ". ") with false.
    exact Hnl.
  - exact Hrs.
  - exists c0, (r ++ ". " ++ c). split; [ now rewrite Hd | exact Hsp ].
Qed.

Lemma numbered_lines_facts (claims : list string) :
  forall i : nat,
    Forall tidy_claim claims ->
    Forall2 numbered_line_facts
      (map (fun ic : nat * string =>
              let (i, claim) := ic in Str.of_nat (i + 1) ++ ". " ++ claim)
           (enumerate_from i claims))
      claims.
Proof.
  induction claims as [ | c rest IH]; intros i Htidy; cbn [enumerate_from map].
  - constructor.
  - inversion Htidy as [ | ? ? Hc Hrest]; subst.
    constructor; [ apply numbered_line; exact Hc | apply IH; exact Hrest ].
Qed.

Lemma claims_loop_lines (lines claims : list string) :
  Forall2 numbered_line_facts lines claims ->
  forall acc, claims_loop lines acc = Ok (acc ++ claims)%list.
Proof.
  induction 1 as [ | L c lines claims (Hclaim & _) _ IH]; intros acc; cbn [claims_loop].
  - now rewrite List.app_nil_r.
  - rewrite Hclaim, IH, <- List.app_assoc. reflexivity.
Qed.

Lemma split_join_lines (lines : list string) :
  lines <> [] ->
  Forall (fun L => occurs nl L = false) lines ->
  Str.split nl (Str.join nl lines) = lines.
Proof.
  unfold nl.
  induction lines as [ | L rest IH]; [ congruence | ].
  intros _ Hall. inversion Hall as [ | ? ? HL Hrest]; subst.
  destruct rest as [ | L' rest'].
  - cbn [Str.join]. apply split_char_single. exact HL.
  - change (Str.join (String (ascii_of_nat 10) "") (L :: L' :: rest'))
      with (L ++ String (ascii_of_nat 10)
                   (Str.join (String (ascii_of_nat 10) "") (L' :: rest'))).
    rewrite split_char_app by exact HL.
    rewrite IH; [ reflexivity | discriminate | exact Hrest ].
Qed.

Lemma rstrip_join_lines (lines : list string) :
  lines <> [] ->
  Forall (fun L => Str.rstrip_with Str.isspace L = L /\ L <> "") lines ->
  Str.rstrip_with Str.isspace (Str.join nl lines) = Str.join nl lines /\
  Str.join nl lines <> "".
Proof.
  induction lines as [ | L rest IH]; [ congruence | ].
  intros _ Hall. inversion Hall as [ | ? ? [HL HLne] Hrest]; subst.
  destruct rest as [ | L' rest'].
  - cbn [Str.join]. split; assumption.
  - change (Str.join nl (L :: L' :: rest'))
      with (L ++ nl ++ Str.join nl (L' :: rest')).
    destruct IH as [IHr IHne]; [ discriminate | exact Hrest | ].
    split.
    + rewrite <- StrFacts.app_assoc.
      rewrite StrFacts.rstrip_app_keep by (rewrite IHr; exact IHne).
      now rewrite IHr.
    + destruct L; [ congruence | discriminate ].
Qed.

Lemma numbered_lines_parse (claims : list string) :
  claims <> [] -> Forall tidy_claim claims ->
  parse_claims (numbered_lines claims) = Ok (firstn 5 claims).
Proof.
  intros Hne Htidy.
  pose proof (numbered_lines_facts claims 0 Htidy) as Hfacts.
  unfold numbered_lines, enumerate.
  set (lines := map _ (enumerate_from 0 claims)) in *.
  assert (Hlines : lines <> []).
  { destruct claims; [ congruence | ]. inversion Hfacts. discriminate. }
  assert (Hnl : Forall (fun L => occurs nl L = false) lines).
  { clear -Hfacts. induction Hfacts as [ | L c ls cs (_ & Hn & _) _ IH]; constructor; auto. }
  assert (Hrs : Forall (fun L => Str.rstrip_with Str.isspace L = L /\ L <> "") lines).
  { clear -Hfacts.
    induction Hfacts as [ | L c ls cs (_ & _ & Hr & c0 & r & -> & _) _ IH];
      constructor; auto. split; [ exact Hr | discriminate ]. }
  assert (Hhead : exists c0 r, Str.join nl lines = String c0 r /\ Str.isspace c0 = false).
  { destruct Hfacts as [ | L c ls cs (_ & _ & _ & c0 & r & -> & Hsp) _]; [ congruence | ].
    destruct ls; cbn [Str.join append]; eexists; eexists; split; eauto. }
  assert (Hstrip : Str.strip (Str.join nl lines) = Str.join nl lines).
  { unfold Str.strip. destruct Hhead as (c0 & r & Hj & Hsp).
    assert (Hl : Str.lstrip_with Str.isspace (Str.join nl lines) = Str.join nl lines)
      by (rewrite Hj; cbn [Str.lstrip_with]; now rewrite Hsp).
    rewrite Hl. apply rstrip_join_lines; assumption. }
  unfold parse_claims. rewrite Hstrip, split_join_lines by assumption.
  rewrite (claims_loop_lines lines claims Hfacts []). reflexivity.
Qed.

(** X14.  The numbered list round trip.  When the service answers the
    extraction call with a numbered list as the prompts write it -- one line
    "i. claim" per claim, counted from 1 -- and the claims are tidy (not
    empty, nothing to strip, one line, no leading dash), the stage returns
    these claims in their order, cut to the first five. *)
Theorem numbered_list_round_trip
    (W : collaborators) (news_text image_text : string) (is_real : bool) (t : trace)
    (claims : list string) :
  claims <> [] -> Forall tidy_claim claims ->
  generate_content W t (claims_prompt news_text image_text is_real)
    = Ok (numbered_lines claims) ->
  fst (extract_claims_for_verification W news_text image_text is_real t)
    = Ok (firstn 5 claims).
Proof.
  intros Hne Htidy Hgen.
  rewrite extract_claims_run. cbn [fst].
  unfold claims_of_outcome. rewrite Hgen. cbn [result_bind].
  rewrite numbered_lines_parse by assumption. reflexivity.
Qed.

Lemma numbered_list_round_trip_witness :
  let claims := ["Trees were planted"; "The mayor spoke"; "3.5 km of road"; "A"; "B"; "C"] in
  fst (extract_claims_for_verification
         (Sample.world (Ok (numbered_lines claims)) (Ok None) (Ok ""))
         "City launches tree-planting drive" "" true
         [CallConfigure "tavily-key" "gemini-key"])
    = Ok ["Trees were planted"; "The mayor spoke"; "3.5 km of road"; "A"; "B"].
Proof.
  intros claims.
  apply (numbered_list_round_trip
           (Sample.world (Ok (numbered_lines claims)) (Ok None) (Ok ""))
           "City launches tree-planting drive" "" true
           [CallConfigure "tavily-key" "gemini-key"] claims).
  - discriminate.
  - repeat constructor; try discriminate; vm_compute; reflexivity.
  - reflexivity.
Defined.

(** ** Fenced responses *)

Lemma lstrip_without (p : ascii -> bool) (a : ascii) (s : string) :
  occurs (String a "") s = false -> occurs (String a "") (Str.lstrip_with p s) = false.
Proof.
  induction s as [ | x r IH]; [ intros H; exact H | ].
  intros Hocc. cbn [Str.lstrip_with]. destruct (p x); [ | exact Hocc ].
  rewrite occurs_char_cons in Hocc. apply orb_false_elim in Hocc. apply IH, Hocc.
Qed.

Lemma rstrip_without (p : ascii -> bool) (a : ascii) (s : string) :
  occurs (String a "") s = false -> occurs (String a "") (Str.rstrip_with p s) = false.
Proof.
  induction s as [ | x r IH]; [ intros H; exact H | ].
  rewrite occurs_char_cons. intros Hocc. apply orb_false_elim in Hocc.
  destruct Hocc as [Hx Hr]. rewrite StrFacts.rstrip_cons.
  destruct (Str.rstrip_with p r) as [ | y ys] eqn:Hrs.
  - destruct (p x); [ reflexivity | ]. rewrite occurs_char_cons, Hx. reflexivity.
  - rewrite occurs_char_cons, Hx. exact (IH Hr).
Qed.

Lemma split_fence_end (X : string) :
  occurs "`" X = false -> Str.split_from "```" (X ++ "```") 0 = [X; ""].
Proof.
  induction X as [ | x r IH]; [ intros _; reflexivity | ].
  rewrite occurs_char_cons. intros Hocc. apply orb_false_elim in Hocc.
  destruct Hocc as [Hx Hr].
  cbn [append Str.split_from String.prefix].
  destruct (ascii_dec "`" x); [ discriminate Hx | ].
  rewrite (IH Hr). reflexivity.
Qed.

Lemma strip_between_newlines (body : string) :
  Str.strip (nl ++ body ++ nl) = Str.strip body.
Proof.
  unfold Str.strip, nl. cbn [append Str.lstrip_with].
  change (Str.isspace (ascii_of_nat 10)) with true. cbv iota.
  rewrite StrFacts.lstrip_app_char.
  change (Str.isspace (ascii_of_nat 10)) with true. cbv iota.
  destruct (Str.lstrip_with Str.isspace body) as [ | y ys]; [ reflexivity | ].
  apply StrFacts.rstrip_app_space. reflexivity.
Qed.

(** X15.  A fence is transparent.  A response that is a block between two
    fences of three backquotes, with or without the tag json and with the
    body on lines of its own, is cleaned to the stripped body -- the same
    text the body gives when it comes without a fence -- provided the body
    has no backquote. *)
Theorem fence_is_transparent (tag body : string) :
  tag = "" \/ tag = "json" -> occurs "`" body = false ->
  clean_response ("```" ++ (tag ++ nl ++ body ++ nl) ++ "```") = Ok (Str.strip body) /\
  clean_response body = Ok (Str.strip body).
Proof.
  intros Htag Hbody. split.
  - set (X := tag ++ nl ++ body ++ nl).
    assert (HX : occurs "`" X = false).
    { subst X. unfold nl. rewrite !occurs_char_app, Hbody.
      destruct Htag as [-> | ->]; reflexivity. }
    assert (Hstrip : Str.strip ("```" ++ X ++ "```") = "```" ++ X ++ "```").
    { unfold Str.strip.
      change (Str.lstrip_with Str.isspace ("```" ++ X ++ "```")) with ("```" ++ X ++ "```").
      rewrite <- (StrFacts.app_assoc "```" X "```").
      rewrite StrFacts.rstrip_app_keep by (vm_compute; discriminate).
      reflexivity. }
    unfold clean_response. rewrite Hstrip.
    assert (Hstart : Str.startswith "```" ("```" ++ X ++ "```") = true).
    { unfold Str.startswith. cbn [append String.prefix].
      repeat (destruct (ascii_dec _ _); [ | congruence ]). apply prefix_empty. }
    rewrite Hstart.
    assert (Hsplit : Str.split "```" ("```" ++ X ++ "```") = [""; X; ""]).
    { unfold Str.split. unfold Str.startswith in Hstart.
      change ("```" ++ X ++ "```") with (String "`" (String "`" (String "`" (X ++ "```"))))
        in *.
      cbn [Str.split_from]. rewrite Hstart.
      change (String.length "```" - 1)%nat with 2%nat. cbn [Str.split_from].
      rewrite split_fence_end by exact HX. reflexivity. }
    rewrite Hsplit. cbn [py_index nth_error result_bind].
    subst X. destruct Htag as [-> | ->].
    + change (Str.startswith "json" ("" ++ nl ++ body ++ nl)) with false. cbv iota.
      change ("" ++ nl ++ body ++ nl) with (nl ++ body ++ nl).
      now rewrite strip_between_newlines.
    + assert (Hjson : Str.startswith "json" ("json" ++ nl ++ body ++ nl) = true).
      { unfold Str.startswith. cbn [append String.prefix].
        repeat (destruct (ascii_dec _ _); [ | congruence ]). apply prefix_empty. }
      rewrite Hjson.
      change (Str.drop 4 ("json" ++ nl ++ body ++ nl)) with (nl ++ body ++ nl).
      now rewrite strip_between_newlines.
  - unfold clean_response.
    assert (Hnone : occurs "`" (Str.strip body) = false)
      by (unfold Str.strip; apply rstrip_without, lstrip_without, Hbody).
    assert (Hstart : Str.startswith "```" (Str.strip body) = false).
    { unfold Str.startswith. destruct (Str.strip body) as [ | x r]; [ reflexivity | ].
      rewrite occurs_char_cons in Hnone. apply orb_false_elim in Hnone.
      cbn [String.prefix]. destruct (ascii_dec "`" x); [ | reflexivity ].
      destruct Hnone as [Hx _]. discriminate Hx. }
    rewrite Hstart. cbn [result_bind].
    now rewrite StrFacts.strip_idempotent.
Qed.

Lemma fence_is_transparent_witness :
  clean_response ("```" ++ ("json" ++ nl ++ "{}" ++ nl) ++ "```") = Ok (Str.strip "{}") /\
  clean_response "{}" = Ok (Str.strip "{}").
Proof.
  apply (fence_is_transparent "json" "{}").
  - right; reflexivity.
  - reflexivity.
Defined.

(** ** The result file of the driver *)

Lemma replace_no_occurrence (old new s : string) :
  occurs old s = false -> Str.replace old new s = s.
Proof.
  unfold Str.replace. induction s as [ | c r IH]; [ reflexivity | ].
  cbn [occurs]. intros Hocc. apply orb_false_elim in Hocc. destruct Hocc as [Hpre Hr].
  cbn [Str.replace_from]. rewrite Hpre, (IH Hr). reflexivity.
Qed.

(** The extension does not overlap itself: an occurrence that starts in the
    stem cannot end in the appended extension. *)
Lemma no_straddle (c1 : ascii) (s : string) :
  String.prefix ".json" (String c1 s) = false ->
  String.prefix ".json" (String c1 s ++ ".json") = false.
Proof.
  intros Hpre.
  cbn [append String.prefix] in *.
  destruct (ascii_dec "." c1); [ | reflexivity ].
  destruct s as [ | c2 s]; [ reflexivity | ].
  cbn [append String.prefix] in *.
  destruct (ascii_dec "j" c2); [ | reflexivity ].
  destruct s as [ | c3 s]; [ reflexivity | ].
  cbn [append String.prefix] in *.
  destruct (ascii_dec "s" c3); [ | reflexivity ].
  destruct s as [ | c4 s]; [ reflexivity | ].
  cbn [append String.prefix] in *.
  destruct (ascii_dec "o" c4); [ | reflexivity ].
  destruct s as [ | c5 s]; [ reflexivity | ].
  cbn [append String.prefix] in *.
  destruct (ascii_dec "n" c5); [ | reflexivity ].
  rewrite prefix_empty in Hpre. discriminate Hpre.
Qed.

(** X16.  Where the driver writes the result.  For an input path that ends
    in ".json" and has no other ".json" in it, the result goes to the path
    with "_result" put before the extension.  For an input path without any
    ".json" the computed path is the input path itself: the result is
    written over the input file. *)
Theorem output_file_of_path (stem : string) :
  occurs ".json" stem = false ->
  Driver.output_file (stem ++ ".json") = stem ++ "_result.json" /\
  Driver.output_file stem = stem.
Proof.
  intros Hstem. split; [ | apply replace_no_occurrence; exact Hstem ].
  unfold Driver.output_file, Str.replace.
  induction stem as [ | c r IH]; [ reflexivity | ].
  cbn [occurs] in Hstem. apply orb_false_elim in Hstem. destruct Hstem as [Hpre Hr].
  cbn [append Str.replace_from].
  change (String c (r ++ ".json")) with (String c r ++ ".json").
  rewrite (no_straddle c r Hpre), (IH Hr). reflexivity.
Qed.

Lemma output_file_of_path_witness :
  Driver.output_file ("news/input.v2" ++ ".json") = "news/input.v2" ++ "_result.json" /\
  Driver.output_file "news/input.v2" = "news/input.v2".
Proof.
  apply (output_file_of_path "news/input.v2"). reflexivity.
Defined.

(** ** Fenced answers and the display of the result *)

(** X17.  A fenced answer is decoded.  When the ranking call is answered by
    a block between fences, tagged json or not, whose body has no backquote
    and whose stripped body decodes to [v], the ranking stage returns [v]. *)
Theorem fenced_answer_is_decoded
    (json_loads : string -> result pyval) (W : collaborators)
    (news_text image_text : string) (is_real : bool) (claims : list string)
    (hits : list hit) (t : trace) (tag body : string) (v : pyval) :
  tag = "" \/ tag = "json" -> occurs "`" body = false ->
  generate_content W t (ranking_prompt news_text image_text is_real claims hits)
    = Ok ("```" ++ (tag ++ nl ++ body ++ nl) ++ "```") ->
  json_loads (Str.strip body) = Ok v ->
  fst (select_top_5_with_explanations json_loads W news_text image_text is_real
         claims hits t) = Ok v.
Proof.
  intros Htag Hbody Hgen Hloads.
  rewrite select_top_5_run. cbn [fst].
  unfold ranking_of_outcome. rewrite Hgen. cbn [result_bind].
  rewrite (proj1 (fence_is_transparent tag body Htag Hbody)). cbn [result_bind].
  rewrite Hloads. reflexivity.
Qed.

Lemma fenced_answer_is_decoded_witness :
  fst (select_top_5_with_explanations Json.loads
         (Sample.world (Ok "") (Ok None)
            (Ok ("```" ++ ("json" ++ nl ++ Sample.maybe_json ++ nl) ++ "```")))
         "City launches tree-planting drive" "" true ["Trees were planted"]
         [normalise_hit Sample.hindu_hit] []) =
    Ok (PyDict [ ("label", PyStr "MAYBE");
                 ("overall_explanation", PyStr "Unclear.");
                 ("top_5_sources", PyList []) ]).
Proof.
  apply (fenced_answer_is_decoded Json.loads
           (Sample.world (Ok "") (Ok None)
              (Ok ("```" ++ ("json" ++ nl ++ Sample.maybe_json ++ nl) ++ "```")))
           "City launches tree-planting drive" "" true ["Trees were planted"]
           [normalise_hit Sample.hindu_hit] [] "json" Sample.maybe_json).
  - right; reflexivity.
  - vm_compute. reflexivity.
  - reflexivity.
  - vm_compute. reflexivity.
Defined.

Lemma fallback_sources_display (l : list hit) :
  forall (i : nat) (sources : list pyval),
    map_result fallback_source (enumerate_from i l) = Ok sources ->
    Driver.display_sources sources = Driver.Printed.
Proof.
  induction l as [ | h rest IH]; intros i sources Hmap; cbn in Hmap.
  - injection Hmap as <-. reflexivity.
  - destruct (source_name_of (url h)) as [name | e]; cbn in Hmap; [ | discriminate ].
    destruct (map_result fallback_source (enumerate_from (S i) rest)) as [ys | e] eqn:Hrest;
      cbn in Hmap; [ | discriminate ].
    injection Hmap as <-.
    cbn [Driver.display_sources]. 
    change (Driver.display_source _) with Driver.Printed at 1. cbv iota.
    exact (IH (S i) ys Hrest).
Qed.

(** X18.  The driver can display every result the pipeline builds itself:
    for every record and every behaviour of the collaborators, the display
    of the result of a run succeeds unless the result is the decoded JSON of
    the ranking response (the display of a decoded [null], for one, fails). *)
Theorem display_succeeds_unless_decoded
    (json_loads : string -> result pyval) (W : collaborators)
    (inp : news_input) (tk gk : string) :
  (exists r t,
     run_pipeline json_loads W inp tk gk = (Ok r, t) /\
     (Driver.display_result r = Driver.Printed \/ decoded_by_ranker json_loads W t r)) /\
  Driver.display_result PyNone = Driver.Failed.
Proof.
  split; [ | reflexivity ].
  destruct (run_pipeline_cases json_loads W tk gk inp) as (r & t & Hrun & Hcases).
  exists r, t. split; [ exact Hrun | ].
  destruct Hcases as
    [(m & ->) | [(b & ->) | [(b & ->) | [(b & e & ->) | [(b & hits & Hfb) | Hdec]]]]];
    try (left; reflexivity); [ | right; exact Hdec ].
  left. unfold fallback_result, enumerate in Hfb.
  destruct (map_result fallback_source (enumerate_from 0 (firstn 5 hits)))
    as [sources | e] eqn:Hmap; cbn in Hfb; [ | discriminate ].
  injection Hfb as <-.
  pose proof (fallback_sources_display _ _ _ Hmap) as Hdisplay.
  unfold Driver.display_result, result_dict.
  cbn [assoc_get String.eqb Ascii.eqb Bool.eqb get_or].
  destruct sources as [ | s rest]; [ reflexivity | ].
  cbn [Driver.py_truthy]. exact Hdisplay.
Qed.

(** ** The publisher name of a standard URL *)

Lemma www_window (s rest : string) :
  String.prefix "www." (s ++ String "."%char rest) = String.prefix "www." (s ++ ".").
Proof.
  destruct s as [ | x1 s]; [ reflexivity | ].
  cbn [append String.prefix]. destruct (ascii_dec "w" x1); [ | reflexivity ].
  destruct s as [ | x2 s]; [ reflexivity | ].
  cbn [append String.prefix]. destruct (ascii_dec "w" x2); [ | reflexivity ].
  destruct s as [ | x3 s]; [ reflexivity | ].
  cbn [append String.prefix]. destruct (ascii_dec "w" x3); [ | reflexivity ].
  destruct s as [ | x4 s].
  - cbn [append String.prefix]. destruct (ascii_dec "." "."); [ | reflexivity ].
    now rewrite !prefix_empty.
  - cbn [append String.prefix]. destruct (ascii_dec "." x4); [ | reflexivity ].
    now rewrite !prefix_empty.
Qed.

Lemma replace_www_keeps_name (name rest : string) :
  occurs "www." (name ++ ".") = false ->
  Str.replace_from "www." "" (name ++ String "."%char rest) 0 =
    name ++ String "."%char (Str.replace_from "www." "" rest 0).
Proof.
  induction name as [ | x r IH]; intros Hocc.
  - reflexivity.
  - cbn [append occurs] in Hocc. apply orb_false_elim in Hocc.
    destruct Hocc as [Hpre Hr].
    cbn [append Str.replace_from].
    change (String x (r ++ String "."%char rest)) with (String x r ++ String "."%char rest).
    rewrite www_window. cbn [append]. rewrite Hpre, (IH Hr). reflexivity.
Qed.

(** X19.  The publisher name of a standard URL.  For a URL made of a
    scheme, "://", a host [name.rest] with or without a leading "www.", and
    nothing or a path after it, the fallback's source name is the title-cased
    first label [name] of the host -- provided scheme and host are free of
    '/', [name] is free of '.', and [name] does not end in "www". *)
Theorem source_name_of_standard_url (scheme pre name rest tail : string) :
  occurs "/" scheme = false ->
  pre = "" \/ pre = "www." ->
  occurs "/" (name ++ "." ++ rest) = false ->
  occurs "." name = false ->
  occurs "www." (name ++ ".") = false ->
  tail = "" \/ (exists path, tail = "/" ++ path) ->
  source_name_of (scheme ++ "://" ++ (pre ++ name ++ "." ++ rest) ++ tail)
    = Ok (Str.title name).
Proof.
  intros Hscheme Hpre Hhost Hname Hwww Htail.
  set (host := pre ++ name ++ "." ++ rest).
  assert (Hslash : occurs "/" host = false).
  { subst host. rewrite occurs_char_app, Hhost.
    destruct Hpre as [-> | ->]; reflexivity. }
  assert (Hparts : exists more,
             Str.split "/" (scheme ++ "://" ++ host ++ tail)
               = (scheme ++ ":") :: "" :: host :: more).
  { change (scheme ++ "://" ++ host ++ tail)
      with (scheme ++ ":" ++ String "/"%char ("" ++ String "/"%char (host ++ tail))).
    rewrite <- StrFacts.app_assoc.
    rewrite split_char_app
      by (rewrite occurs_char_app, Hscheme; reflexivity).
    rewrite split_char_app by reflexivity.
    destruct Htail as [-> | [path ->]].
    - rewrite StrFacts.app_nil_r, split_char_single by exact Hslash.
      exists []. reflexivity.
    - change ("/" ++ path) with (String "/"%char path).
      rewrite split_char_app by exact Hslash.
      eexists. reflexivity. }
  destruct Hparts as [more Hparts].
  unfold source_name_of. rewrite Hparts. cbn [py_index nth_error result_bind].
  assert (Hreplace : Str.replace "www." "" host
                     = name ++ String "."%char (Str.replace_from "www." "" rest 0)).
  { subst host. unfold Str.replace.
    change (name ++ "." ++ rest) with (name ++ String "."%char rest).
    destruct Hpre as [-> | ->].
    - apply replace_www_keeps_name. exact Hwww.
    - change ("www." ++ name ++ String "."%char rest)
        with (String "w" (String "w" (String "w"
                (String "." (name ++ String "."%char rest))))).
      cbn [Str.replace_from String.prefix].
      repeat (destruct (ascii_dec _ _); [ | congruence ]).
      rewrite prefix_empty.
      change (String.length "www." - 1)%nat with 3%nat. cbn [Str.replace_from append].
      apply replace_www_keeps_name. exact Hwww. }
  rewrite Hreplace, split_char_app by exact Hname.
  reflexivity.
Qed.

Lemma source_name_of_standard_url_witness :
  source_name_of ("https" ++ "://" ++ ("www." ++ "thehindu" ++ "." ++ "com") ++ "/news/a")
    = Ok (Str.title "thehindu") /\
  source_name_of ("https" ++ "://" ++ ("" ++ "timesofindia" ++ "." ++ "indiatimes.com") ++ "")
    = Ok (Str.title "timesofindia").
Proof.
  split.
  - apply (source_name_of_standard_url "https" "www." "thehindu" "com" "/news/a");
      try reflexivity.
    + right; reflexivity.
    + right. exists "news/a". reflexivity.
  - apply (source_name_of_standard_url "https" "" "timesofindia" "indiatimes.com" "");
      try reflexivity.
    + left; reflexivity.
    + left; reflexivity.
Defined.
